(** * InvoiceGenerator: the form collector and the PDF renderer

    A shallow embedding of [src/InvoiceGenerator.py].  The Python code is a
    Tk form ([InvoiceApp]) whose button handler snapshots the widgets into
    a dict and hands it to [generate_invoice_pdf], which asks for a
    destination, draws one A4 page through ReportLab and reports the
    outcome in a message box.

    The interpreter's string and list primitives the code relies on
    ([str.strip], [str.split], list subscripts, [range] loops, exceptions)
    are in [Module Py].  ReportLab, Tk and the operating system are outside
    the repository: what the code asks of them is collected in the records
    [ReportLab] and [Desktop], over which every statement quantifies. *)

From Stdlib Require Import Ascii String QArith.
From stdpp Require Import gmap strings list.

Local Open Scope string_scope.
Local Open Scope list_scope.

(** ** The Python primitives used by the source *)

Module Py.

(** What a library call raises: the exception class and [str(e)]. *)
Record Raised := { cls : string; msg : string }.

(** Exceptions reaching the [except Exception] clause.  [IndexError] is
    the one the interpreter itself raises on a list subscript; everything
    else comes out of a library call. *)
Inductive Exc :=
| IndexError
| Foreign (r : Raised).

(** [str(e)], as interpolated by the f-string of the error dialog. *)
Definition str (e : Exc) : string :=
  match e with
  | IndexError => "list index out of range"
  | Foreign r => msg r
  end.

(** A computation that returns or raises. *)
Definition M (A : Type) : Type := (Exc + A)%type.

Definition ret {A} (a : A) : M A := inr a.
Definition raise {A} (e : Exc) : M A := inl e.
Definition bind {A B} (m : M A) (k : A -> M B) : M B :=
  match m with
  | inl e => inl e
  | inr a => k a
  end.

(** A library call that either raises or goes through. *)
Definition guard (o : option Raised) : M unit :=
  match o with
  | Some r => raise (Foreign r)
  | None => ret tt
  end.

(** [l[i]] for a non-negative index. *)
Definition getitem {A} (l : list A) (i : nat) : M A :=
  match l !! i with
  | Some x => ret x
  | None => raise IndexError
  end.

(** [for i in range(...)] threading the loop's state, stopping at the
    first exception. *)
Fixpoint for_each {S} (body : nat -> S -> M S) (idx : list nat) (s : S) : M S :=
  match idx with
  | [] => ret s
  | i :: rest => bind (body i s) (for_each body rest)
  end.

Definition range (n : nat) : list nat := seq 0 n.

(** Characters are modelled by [ascii], read as code points below 256.
    [str.isspace] on that range: TAB..CR, FS..US, SPACE, NEL, NBSP. *)
Definition isspace (c : ascii) : bool :=
  let n := nat_of_ascii c in
  (((9 <=? n) && (n <=? 13)) || ((28 <=? n) && (n <=? 32))
   || (n =? 133) || (n =? 160))%nat.

Fixpoint lstrip (s : string) : string :=
  match s with
  | EmptyString => EmptyString
  | String c s' => if isspace c then lstrip s' else s
  end.

Fixpoint rstrip (s : string) : string :=
  match s with
  | EmptyString => EmptyString
  | String c s' =>
      match rstrip s' with
      | EmptyString => if isspace c then EmptyString else String c EmptyString
      | r => String c r
      end
  end.

(** [s.strip()] *)
Definition strip (s : string) : string := lstrip (rstrip s).

Definition newline : ascii := ascii_of_nat 10.

(** [s.split('\n')]: the pieces between newlines, in order. *)
Fixpoint split_lines (s : string) : list string :=
  match s with
  | EmptyString => [EmptyString]
  | String c s' =>
      if Ascii.eqb c newline then EmptyString :: split_lines s'
      else match split_lines s' with
           | piece :: rest => String c piece :: rest
           | [] => [String c EmptyString]
           end
  end.

End Py.

Notation "'let*' x ':=' m 'in' k" := (Py.bind m (fun x => k))
  (at level 10, x name, m at level 100, k at level 200).

(** ** The data model *)

(** The dict built by the collector and read by the renderer.  Its eight
    keys are fixed, so it is a record. *)
Record Data := {
  invoice_title : string;
  my_details : string;
  client_details : string;
  deliverables : string;
  inference : string;
  total_amount : string;
  header_font : string;
  body_font : string
}.

(** The attributes of [styles['Normal']] the source assigns. *)
Record ParagraphStyle := {
  fontName : string;
  fontSize : Z;
  leading : Z
}.

(** A [Paragraph] flowable: its markup and its style. *)
Record Para := { text : string; style : ParagraphStyle }.

(** A table cell is a plain string (the header row) or a [Paragraph]. *)
Inductive Cell :=
| Str (s : string)
| Flow (p : Para).

Definition Row := list Cell.

(** One [TableStyle] command: name, start and stop cell, arguments. *)
Inductive StyleArg :=
| Colour (hex : string)
| Word (s : string)
| Num (n : Z).

Record StyleCmd := {
  cmd : string;
  start : Z * Z;
  stop : Z * Z;
  args : list StyleArg
}.

Record Table := {
  table_data : list Row;
  colWidths : list Q;
  table_style : list StyleCmd
}.

Record TextObject := {
  text_font : string * Z;
  origin : Q * Q;
  lines : list string
}.

(** What has been drawn on the canvas, in order. *)
Inductive Op :=
| SetFont (name : string) (size : Z)
| DrawCentredString (x y : Q) (s : string)
| DrawText (t : TextObject)
| DrawTable (t : Table) (x y : Q).

Record Canvas := {
  filename : string;
  pagesize : Q * Q;
  font : string * Z;
  ops : list Op
}.

(** The page as saved: everything on the canvas but its file name. *)
Record Document := { page : Q * Q; content : list Op }.

Inductive File :=
| Pdf (d : Document)
| Truncated.

(** ** What lies outside the repository *)

(** ReportLab and the string tables of the interpreter: the constants
    [inch] and [A4], and every call of the source that may raise or whose
    result the library decides. *)
Record ReportLab := {
  inch : Q;
  A4 : Q * Q;
  (** [pdfmetrics.hasFont], as the source calls it: an attribute lookup
      and a call, either of which may raise *)
  hasFont : string -> Py.Raised + bool;
  (** [Canvas.setFont] raises on a font it cannot find *)
  setFont_raises : string -> option Py.Raised;
  (** [Paragraph(text, style)] parses the markup when it is built *)
  Paragraph_raises : string -> ParagraphStyle -> option Py.Raised;
  (** [Table.wrapOn(canvas, availWidth, availHeight)] *)
  wrapOn : Table -> Q -> Q -> Py.Raised + Q * Q;
  (** [Table.drawOn] sets the fonts the table style names on the canvas
      and raises on one it cannot find *)
  drawOn_raises : Table -> option Py.Raised;
  (** [str.upper] *)
  upper : string -> string
}.

(** The user at the dialogs and the disk under [Canvas.save]. *)
Record Desktop := {
  (** the answer of [filedialog.asksaveasfilename]; empty on cancel *)
  asksaveasfilename : string;
  (** a failing write: what is raised, and whether a truncated file stays *)
  write_raises : string -> option (Py.Raised * bool)
}.

(** What a click leaves behind, oldest first: the record the handler
    built, and the message boxes shown. *)
Inductive Event :=
| Collected (data : Data)
| ShowInfo (title message : string)
| ShowError (title message : string).

Record World := {
  fs : gmap string File;
  log : list Event
}.

Definition is_notification (e : Event) : bool :=
  match e with
  | Collected _ => false
  | ShowInfo _ _ | ShowError _ _ => true
  end.

Definition notifications (w : World) : list Event :=
  List.filter is_notification (log w).

(** ** [generate_invoice_pdf] *)

Section Renderer.

Variable rl : ReportLab.

Definition available_fonts : list string :=
  ["Helvetica"; "Times-Roman"; "Courier"].

(** [name if name in available_fonts or pdfmetrics.hasFont(name) else default]:
    the library is asked only about a name that is not a standard one. *)
Definition validate_font (name default : string) : Py.M string :=
  if bool_decide (name ∈ available_fonts) then Py.ret name
  else match hasFont rl name with
       | inl r => Py.raise (Py.Foreign r)
       | inr true => Py.ret name
       | inr false => Py.ret default
       end.

(** The values given to the locals [header_font] and [body_font]. *)
Definition header_font_used (data : Data) : Py.M string :=
  validate_font (header_font data) "Helvetica".

Definition body_font_used (data : Data) : Py.M string :=
  validate_font (body_font data) "Times-Roman".

(** *** The canvas *)

Definition new_Canvas (file_path : string) (size : Q * Q) : Canvas :=
  {| filename := file_path; pagesize := size;
     font := ("Helvetica", 12%Z); ops := [] |}.

Definition emit (c : Canvas) (o : Op) : Canvas :=
  {| filename := filename c; pagesize := pagesize c;
     font := font c; ops := ops c ++ [o] |}.

Definition setFont (c : Canvas) (name : string) (size : Z) : Py.M Canvas :=
  let* _ := Py.guard (setFont_raises rl name) in
  Py.ret {| filename := filename c; pagesize := pagesize c;
            font := (name, size); ops := ops c ++ [SetFont name size] |}.

Definition drawCentredString (c : Canvas) (x y : Q) (s : string) : Canvas :=
  emit c (DrawCentredString x y s).

Definition beginText (c : Canvas) : TextObject :=
  {| text_font := font c; origin := (0, 0)%Q; lines := [] |}.

Definition setTextOrigin (t : TextObject) (x y : Q) : TextObject :=
  {| text_font := text_font t; origin := (x, y); lines := lines t |}.

Definition textLine (t : TextObject) (line : string) : TextObject :=
  {| text_font := text_font t; origin := origin t;
     lines := lines t ++ [line] |}.

Definition drawText (c : Canvas) (t : TextObject) : Canvas :=
  emit c (DrawText t).

(** *** The table *)

Definition Paragraph (markup : string) (p_style : ParagraphStyle) : Py.M Cell :=
  let* _ := Py.guard (Paragraph_raises rl markup p_style) in
  Py.ret (Flow {| text := markup; style := p_style |}).

(** The body of [for i in range(max_len)]. *)
Definition append_item_row (deliverables_list inference_list : list string)
    (p_style : ParagraphStyle) (i : nat) (rows : list Row) : Py.M (list Row) :=
  let* deliverable :=
    if (i <? length deliverables_list)%nat
    then Py.getitem deliverables_list i else Py.ret "" in
  let* description :=
    if (i <? length inference_list)%nat
    then Py.getitem inference_list i else Py.ret "" in
  let* left := Paragraph deliverable p_style in
  let* right := Paragraph description p_style in
  Py.ret (rows ++ [[left; right]]).

Definition build_table_data (data : Data) (p_style : ParagraphStyle)
  : Py.M (list Row) :=
  let rows := [[Str "Deliverables"; Str "Inference"]] in
  let deliverables_list := Py.split_lines (deliverables data) in
  let inference_list := Py.split_lines (inference data) in
  let max_len := Nat.max (length deliverables_list) (length inference_list) in
  let* rows :=
    Py.for_each (append_item_row deliverables_list inference_list p_style)
                (Py.range max_len) rows in
  let* label := Paragraph "<b>TOTAL PAYABLE:</b>" p_style in
  let* value := Paragraph ("<b>" +:+ total_amount data +:+ "</b>") p_style in
  Py.ret (rows ++ [[label; value]]).

Definition style_cmd (name : string) (from to : Z * Z) (a : list StyleArg)
  : StyleCmd :=
  {| cmd := name; start := from; stop := to; args := a |}.

Definition build_table_style (header_font body_font : string) : list StyleCmd :=
  [ style_cmd "BACKGROUND" (0, 0) (-1, 0) [Colour "#EEEEEE"];
    style_cmd "TEXTCOLOR" (0, 0) (-1, 0) [Colour "#000000"];
    style_cmd "ALIGN" (0, 0) (-1, -1) [Word "LEFT"];
    style_cmd "FONTNAME" (0, 0) (-1, 0) [Word (header_font +:+ "-Bold")];
    style_cmd "FONTSIZE" (0, 0) (-1, 0) [Num 10];
    style_cmd "BOTTOMPADDING" (0, 0) (-1, 0) [Num 12];
    style_cmd "BACKGROUND" (0, -1) (-1, -1) [Colour "#DDDDDD"];
    style_cmd "TEXTCOLOR" (0, -1) (-1, -1) [Colour "#000000"];
    style_cmd "FONTNAME" (0, -1) (-1, -1) [Word (body_font +:+ "-Bold")];
    style_cmd "FONTSIZE" (0, -1) (-1, -1) [Num 10];
    style_cmd "GRID" (0, 0) (-1, -1) [Num 1; Colour "#CCCCCC"];
    style_cmd "VALIGN" (0, 0) (-1, -1) [Word "TOP"];
    style_cmd "LEFTPADDING" (0, 0) (-1, -1) [Num 5];
    style_cmd "RIGHTPADDING" (0, 0) (-1, -1) [Num 5];
    style_cmd "TOPPADDING" (0, 0) (-1, -1) [Num 5];
    style_cmd "BOTTOMPADDING" (0, 0) (-1, -1) [Num 5] ]%Z.

Definition new_Table (rows : list Row) (widths : list Q) : Table :=
  {| table_data := rows; colWidths := widths; table_style := [] |}.

Definition setStyle (t : Table) (cmds : list StyleCmd) : Table :=
  {| table_data := table_data t; colWidths := colWidths t;
     table_style := table_style t ++ cmds |}.

Definition drawOn (t : Table) (c : Canvas) (x y : Q) : Py.M Canvas :=
  let* _ := Py.guard (drawOn_raises rl t) in
  Py.ret (emit c (DrawTable t x y)).

(** *** The page: lines 34 to 152 of the source, inside the [try] *)

Definition draw_invoice (data : Data) (c : Canvas) : Py.M Canvas :=
  let width := (A4 rl).1 in
  let height := (A4 rl).2 in
  let* header_font := header_font_used data in
  let* body_font := body_font_used data in
  (* header *)
  let* c := setFont c (header_font +:+ "-Bold") 36 in
  let c := drawCentredString c (width / 2) (height - 70)
                             (upper rl (invoice_title data)) in
  (* sender block *)
  let* c := setFont c body_font 10 in
  let textobject_my := beginText c in
  let textobject_my := setTextOrigin textobject_my (inch rl) (height - 150) in
  let textobject_my :=
    fold_left textLine (Py.split_lines (my_details data)) textobject_my in
  let c := drawText c textobject_my in
  (* client block *)
  let* c := setFont c body_font 10 in
  let textobject_client := beginText c in
  let textobject_client :=
    setTextOrigin textobject_client (width - (7 # 2) * inch rl) (height - 150) in
  let textobject_client :=
    fold_left textLine (Py.split_lines (client_details data)) textobject_client in
  let c := drawText c textobject_client in
  (* table *)
  let p_style := {| fontName := body_font; fontSize := 10; leading := 12 |} in
  let* rows := build_table_data data p_style in
  let col_widths :=
    [((width - 2 * inch rl) / 2)%Q; ((width - 2 * inch rl) / 2)%Q] in
  let table := new_Table rows col_widths in
  let table := setStyle table (build_table_style header_font body_font) in
  match wrapOn rl table (width - 2 * inch rl) height with
  | inl r => Py.raise (Py.Foreign r)
  | inr (table_width, table_height) =>
      drawOn table c (inch rl) (height - 300 - table_height)
  end.

(** *** Saving and reporting *)

Variable desk : Desktop.

(** [c.save()]: the disk afterwards, and whether the call raised. *)
Definition save (c : Canvas) (disk : gmap string File)
  : gmap string File * Py.M unit :=
  match write_raises desk (filename c) with
  | None =>
      (<[filename c := Pdf {| page := pagesize c; content := ops c |}]> disk,
       Py.ret tt)
  | Some (r, partial) =>
      (if partial : bool then <[filename c := Truncated]> disk else disk,
       Py.raise (Py.Foreign r))
  end.

(** The statements of the [try] block up to and including [c.save()]. *)
Definition try_render (data : Data) (file_path : string)
    (disk : gmap string File) : gmap string File * Py.M unit :=
  match draw_invoice data (new_Canvas file_path (A4 rl)) with
  | inl e => (disk, Py.raise e)
  | inr c => save c disk
  end.

Definition success_message : Event :=
  ShowInfo "Success" "Invoice PDF generated successfully!".

Definition error_message (e : Py.Exc) : Event :=
  ShowError "Error" ("An error occurred during PDF generation: " +:+ Py.str e).

Definition generate_invoice_pdf (data : Data) (w : World) : World :=
  let file_path := asksaveasfilename desk in
  if String.eqb file_path "" then w
  else
    match try_render data file_path (fs w) with
    | (disk, inr _) => {| fs := disk; log := log w ++ [success_message] |}
    | (disk, inl e) => {| fs := disk; log := log w ++ [error_message e] |}
    end.

End Renderer.

(** ** The form *)

Module InvoiceApp.

(** The current content of each widget: what [.get()] returns. *)
Record t := {
  invoice_title : string;
  my_details_text : string;
  client_details_text : string;
  deliverables_text : string;
  inference_text : string;
  total_amount : string;
  header_font_var : string;
  body_font_var : string
}.

End InvoiceApp.

(** The dict literal of [on_generate_button_click]. *)
Definition collect (self : InvoiceApp.t) : Data :=
  {| invoice_title := InvoiceApp.invoice_title self;
     my_details := Py.strip (InvoiceApp.my_details_text self);
     client_details := Py.strip (InvoiceApp.client_details_text self);
     deliverables := Py.strip (InvoiceApp.deliverables_text self);
     inference := Py.strip (InvoiceApp.inference_text self);
     total_amount := InvoiceApp.total_amount self;
     header_font := InvoiceApp.header_font_var self;
     body_font := InvoiceApp.body_font_var self |}.

(** The handler builds the record first and only then calls the renderer,
    which opens the picker. *)
Definition on_generate_button_click (rl : ReportLab) (desk : Desktop)
    (self : InvoiceApp.t) (w : World) : World :=
  let data := collect self in
  generate_invoice_pdf rl desk data
    {| fs := fs w; log := log w ++ [Collected data] |}.

(** ** Concrete instances, for running the model *)

Module Sample.

Definition nl : string := String Py.newline EmptyString.

Definition upper_char (c : ascii) : ascii :=
  let n := nat_of_ascii c in
  if ((97 <=? n) && (n <=? 122))%nat then ascii_of_nat (n - 32) else c.

Fixpoint upper_ascii (s : string) : string :=
  match s with
  | EmptyString => EmptyString
  | String c s' => String (upper_char c) (upper_ascii s')
  end.

(** A lenient library: A4 in points at 72 points to the inch, no font
    registered, every font found, every markup accepted, rows 22 points
    high. *)
Definition reportlab : ReportLab :=
  {| inch := 72;
     A4 := (75600 # 127, 106920 # 127);
     hasFont := fun _ => inr false;
     setFont_raises := fun _ => None;
     Paragraph_raises := fun _ _ => None;
     wrapOn := fun t w _ => inr (w, 22 * inject_Z (Z.of_nat (length (table_data t))))%Q;
     drawOn_raises := fun _ => None;
     upper := upper_ascii |}.

Definition unclosed_tag : Py.Raised :=
  {| Py.cls := "ValueError"; Py.msg := "paragraph text has an unclosed tag" |}.

(** The same library, with a [Paragraph] that rejects any markup
    starting with a lone [<]. *)
Definition strict_reportlab : ReportLab :=
  {| inch := 72;
     A4 := (75600 # 127, 106920 # 127);
     hasFont := fun _ => inr false;
     setFont_raises := fun _ => None;
     Paragraph_raises := fun markup _ =>
       if String.eqb markup "<" then Some unclosed_tag else None;
     wrapOn := fun t w _ => inr (w, 22 * inject_Z (Z.of_nat (length (table_data t))))%Q;
     drawOn_raises := fun _ => None;
     upper := upper_ascii |}.

(** The fourteen fonts ReportLab finds without any registration. *)
Definition standard_fonts : list string :=
  [ "Courier"; "Courier-Bold"; "Courier-Oblique"; "Courier-BoldOblique";
    "Helvetica"; "Helvetica-Bold"; "Helvetica-Oblique"; "Helvetica-BoldOblique";
    "Times-Roman"; "Times-Bold"; "Times-Italic"; "Times-BoldItalic";
    "Symbol"; "ZapfDingbats" ].

Definition no_hasFont : Py.Raised :=
  {| Py.cls := "AttributeError";
     Py.msg := "module 'reportlab.pdfbase.pdfmetrics' has no attribute 'hasFont'" |}.

Definition font_not_found (name : string) : Py.Raised :=
  {| Py.cls := "KeyError"; Py.msg := "'" +:+ name +:+ "'" |}.

Definition find_font (name : string) : option Py.Raised :=
  if bool_decide (name ∈ standard_fonts) then None else Some (font_not_found name).

(** The font names of the FONTNAME commands of a table style. *)
Definition style_fonts (cmds : list StyleCmd) : list string :=
  flat_map (fun c => if String.eqb (cmd c) "FONTNAME"
                     then match args c with
                          | [Word name] => [name]
                          | _ => []
                          end
                     else []) cmds.

Fixpoint first_missing (names : list string) : option Py.Raised :=
  match names with
  | [] => None
  | name :: rest =>
      match find_font name with
      | Some r => Some r
      | None => first_missing rest
      end
  end.

(** The library as it behaves with no font registered: [pdfmetrics] has
    no attribute [hasFont], so that call raises; [setFont] and
    [Table.drawOn] find the standard fonts and raise [KeyError] on any
    other name; [Paragraph] rejects a lone [<]. *)
Definition observed : ReportLab :=
  {| inch := 72;
     A4 := (75600 # 127, 106920 # 127);
     hasFont := fun _ => inl no_hasFont;
     setFont_raises := find_font;
     Paragraph_raises := fun markup _ =>
       if String.eqb markup "<" then Some unclosed_tag else None;
     wrapOn := fun t w _ => inr (w, 22 * inject_Z (Z.of_nat (length (table_data t))))%Q;
     drawOn_raises := fun t => first_missing (style_fonts (table_style t));
     upper := upper_ascii |}.

(** The user picks [path]; the disk takes every write. *)
Definition saving_to (path : string) : Desktop :=
  {| asksaveasfilename := path; write_raises := fun _ => None |}.

(** The user closes the picker. *)
Definition cancelling : Desktop := saving_to "".

Definition read_only : Py.Raised :=
  {| Py.cls := "PermissionError"; Py.msg := "[Errno 13] Permission denied" |}.

(** The user picks [path]; the disk refuses every write. *)
Definition refused_at (path : string) : Desktop :=
  {| asksaveasfilename := path;
     write_raises := fun _ => Some (read_only, false) |}.

Definition blank_world : World := {| fs := ∅; log := [] |}.

(** The record of the specification's worked example. *)
Definition two_and_one : Data :=
  {| invoice_title := "Sales Invoice";
     my_details := "Me";
     client_details := "You";
     deliverables := "A" +:+ nl +:+ "B";
     inference := "X";
     total_amount := "100";
     header_font := "Courier";
     body_font := "Helvetica" |}.

(** A record whose two font names are unknown to the library. *)
Definition unknown_fonts : Data :=
  {| invoice_title := "Sales Invoice";
     my_details := "Me";
     client_details := "You";
     deliverables := "A" +:+ nl +:+ "B";
     inference := "X";
     total_amount := "100";
     header_font := "Baskerville-Light";
     body_font := "Comic Sans" |}.

(** A record with the font selections the form starts with. *)
Definition default_fonts : Data :=
  {| invoice_title := "Sales Invoice";
     my_details := "Me";
     client_details := "You";
     deliverables := "A" +:+ nl +:+ "B";
     inference := "X";
     total_amount := "100";
     header_font := "Helvetica";
     body_font := "Times-Roman" |}.

(** A form whose deliverables box starts with two spaces. *)
Definition indented_form : InvoiceApp.t :=
  {| InvoiceApp.invoice_title := "Sales Invoice";
     InvoiceApp.my_details_text := "Me" +:+ nl;
     InvoiceApp.client_details_text := "You" +:+ nl;
     InvoiceApp.deliverables_text := "  A" +:+ nl +:+ "B" +:+ nl;
     InvoiceApp.inference_text := "X" +:+ nl;
     InvoiceApp.total_amount := "100";
     InvoiceApp.header_font_var := "Helvetica";
     InvoiceApp.body_font_var := "Times-Roman" |}.

Definition normal_style : ParagraphStyle :=
  {| fontName := "Times-Roman"; fontSize := 10; leading := 12 |}.

End Sample.


(** ** Vocabulary of the statements *)

(** The cell text at position [i] of a line list, empty past its end. *)
Definition padded (l : list string) (i : nat) : string := default "" (l !! i).

Definition header_row : Row := [Str "Deliverables"; Str "Inference"].

Definition item_row (p_style : ParagraphStyle) (dl il : list string) (i : nat) : Row :=
  [Flow {| text := padded dl i; style := p_style |};
   Flow {| text := padded il i; style := p_style |}].

Definition total_row (p_style : ParagraphStyle) (total : string) : Row :=
  [Flow {| text := "<b>TOTAL PAYABLE:</b>"; style := p_style |};
   Flow {| text := "<b>" +:+ total +:+ "</b>"; style := p_style |}].

(** Every markup handed to [Paragraph] while the table is built. *)
Definition table_markups (data : Data) : list string :=
  let dl := Py.split_lines (deliverables data) in
  let il := Py.split_lines (inference data) in
  flat_map (fun i => [padded dl i; padded il i])
           (Py.range (Nat.max (length dl) (length il)))
  ++ ["<b>TOTAL PAYABLE:</b>"; "<b>" +:+ total_amount data +:+ "</b>"].

Definition accepts (rl : ReportLab) (p_style : ParagraphStyle) (markup : string) : bool :=
  match Paragraph_raises rl markup p_style with
  | None => true
  | Some _ => false
  end.

(** The library parses every cell of this record's table. *)
Definition markup_accepted (rl : ReportLab) (data : Data) (p_style : ParagraphStyle) : bool :=
  forallb (accepts rl p_style) (table_markups data).

(** The text of a cell, whichever kind it is. *)
Definition cell_text (c : Cell) : string :=
  match c with
  | Str s => s
  | Flow p => text p
  end.

(** The text in row [r], column [c] of the table data. *)
Definition table_cell (rows : list Row) (r c : nat) : option string :=
  match rows !! r with
  | Some row => cell_text <$> row !! c
  | None => None
  end.

(** The table data in closed form: header, one row per position of the
    longer list, total. *)
Definition table_rows (p_style : ParagraphStyle) (data : Data) : list Row :=
  let dl := Py.split_lines (deliverables data) in
  let il := Py.split_lines (inference data) in
  header_row
  :: map (item_row p_style dl il) (Py.range (Nat.max (length dl) (length il)))
  ++ [total_row p_style (total_amount data)].

(** The page in closed form, for the validated fonts [hf] and [bf].
    [cell_style] is the [p_style] of the source after its three
    assignments. *)
Definition cell_style (bf : string) : ParagraphStyle :=
  {| fontName := bf; fontSize := 10; leading := 12 |}.

Definition text_block (font_name : string) (x y : Q) (s : string) : TextObject :=
  {| text_font := (font_name, 10%Z); origin := (x, y); lines := Py.split_lines s |}.

Definition invoice_table (rl : ReportLab) (hf bf : string) (rows : list Row) : Table :=
  {| table_data := rows;
     colWidths := [(((A4 rl).1 - 2 * inch rl) / 2)%Q; (((A4 rl).1 - 2 * inch rl) / 2)%Q];
     table_style := build_table_style hf bf |}.

Definition page_ops (rl : ReportLab) (data : Data) (hf bf : string)
    (rows : list Row) (table_height : Q) : list Op :=
  [ SetFont (hf +:+ "-Bold") 36;
    DrawCentredString ((A4 rl).1 / 2) ((A4 rl).2 - 70) (upper rl (invoice_title data));
    SetFont bf 10;
    DrawText (text_block bf (inch rl) ((A4 rl).2 - 150) (my_details data));
    SetFont bf 10;
    DrawText (text_block bf ((A4 rl).1 - (7 # 2) * inch rl) ((A4 rl).2 - 150)
                         (client_details data));
    DrawTable (invoice_table rl hf bf rows)
              (inch rl) ((A4 rl).2 - 300 - table_height) ].

(** The record with one font choice replaced. *)
Definition set_header_font (name : string) (data : Data) : Data :=
  {| invoice_title := invoice_title data; my_details := my_details data;
     client_details := client_details data; deliverables := deliverables data;
     inference := inference data; total_amount := total_amount data;
     header_font := name; body_font := body_font data |}.

Definition set_body_font (name : string) (data : Data) : Data :=
  {| invoice_title := invoice_title data; my_details := my_details data;
     client_details := client_details data; deliverables := deliverables data;
     inference := inference data; total_amount := total_amount data;
     header_font := header_font data; body_font := name |}.

(** Only whitespace. *)
Fixpoint blank (s : string) : bool :=
  match s with
  | EmptyString => true
  | String c s' => Py.isspace c && blank s'
  end.

(** [s] is [raw] without its leading and trailing whitespace. *)
Definition trimmed_of (raw s : string) : Prop :=
  (exists pre post, raw = pre +:+ s +:+ post /\ blank pre = true /\ blank post = true)
  /\ Py.lstrip s = s /\ Py.rstrip s = s.

(** The lines put back together, one newline between neighbours. *)
Fixpoint join_lines (l : list string) : string :=
  match l with
  | [] => EmptyString
  | x :: rest =>
      match rest with
      | [] => x
      | _ :: _ => x +:+ String Py.newline (join_lines rest)
      end
  end.

(** The snapshot as the specification words it: every widget's text as
    it is. *)
Definition untouched (self : InvoiceApp.t) : Data :=
  {| invoice_title := InvoiceApp.invoice_title self;
     my_details := InvoiceApp.my_details_text self;
     client_details := InvoiceApp.client_details_text self;
     deliverables := InvoiceApp.deliverables_text self;
     inference := InvoiceApp.inference_text self;
     total_amount := InvoiceApp.total_amount self;
     header_font := InvoiceApp.header_font_var self;
     body_font := InvoiceApp.body_font_var self |}.

(** The number of newline characters of a text. *)
Fixpoint count_newlines (s : string) : nat :=
  match s with
  | EmptyString => 0
  | String c s' => (if Ascii.eqb c Py.newline then 1 else 0) + count_newlines s'
  end.

(** [raw] is [core] between two runs of whitespace. *)
Definition surrounds (raw core : string) : Prop :=
  exists before after,
    raw = before +:+ core +:+ after /\ blank before = true /\ blank after = true.

(** A form whose widgets hold the fields of a record. *)
Definition form_of (data : Data) : InvoiceApp.t :=
  {| InvoiceApp.invoice_title := invoice_title data;
     InvoiceApp.my_details_text := my_details data;
     InvoiceApp.client_details_text := client_details data;
     InvoiceApp.deliverables_text := deliverables data;
     InvoiceApp.inference_text := inference data;
     InvoiceApp.total_amount := total_amount data;
     InvoiceApp.header_font_var := header_font data;
     InvoiceApp.body_font_var := body_font data |}.

(** The [values] of the two read-only font comboboxes of [__init__]. *)
Definition available_fonts_reportlab : list string :=
  ["Helvetica"; "Times-Roman"; "Courier"].

(** What [Paragraph] raises on the first markup of the list it rejects. *)
Fixpoint first_rejected (rl : ReportLab) (p_style : ParagraphStyle)
    (markups : list string) : option Py.Raised :=
  match markups with
  | [] => None
  | m :: rest =>
      match Paragraph_raises rl m p_style with
      | Some r => Some r
      | None => first_rejected rl p_style rest
      end
  end.

(** The width of a table: its column widths added up. *)
Definition table_width_of (t : Table) : Q := fold_right Qplus 0%Q (colWidths t).

Definition is_paragraph_in (p_style : ParagraphStyle) (c : Cell) : Prop :=
  exists markup, c = Flow {| text := markup; style := p_style |}.

Definition is_plain_string (c : Cell) : Prop := exists s, c = Str s.

(** ** Properties of the Python primitives *)

Lemma split_lines_length (s : string) : (1 <= length (Py.split_lines s))%nat.
Proof.
  induction s as [|c s IH]; simpl; [lia|].
  destruct (Ascii.eqb c Py.newline); simpl; [lia|].
  destruct (Py.split_lines s); simpl in *; lia.
Qed.

Lemma bind_inr {A B} (m : Py.M A) (k : A -> Py.M B) (b : B) :
  Py.bind m k = inr b -> exists a, m = inr a /\ k a = inr b.
Proof. destruct m as [e|a]; simpl; [discriminate | eauto]. Qed.

Lemma bind_inl {A B} (m : Py.M A) (k : A -> Py.M B) (e : Py.Exc) :
  Py.bind m k = inl e -> m = inl e \/ exists a, m = inr a /\ k a = inl e.
Proof. destruct m as [e'|a]; simpl; [intros [= ->]; auto | eauto]. Qed.

(** The guarded subscript of the loop never raises. *)
Lemma guarded_getitem (l : list string) (i : nat) :
  (if (i <? length l)%nat then Py.getitem l i else Py.ret "")
  = Py.ret (padded l i).
Proof.
  unfold padded, Py.getitem.
  destruct (Nat.ltb_spec i (length l)) as [Hlt|Hge].
  - destruct (lookup_lt_is_Some_2 l i Hlt) as [x ->]. reflexivity.
  - rewrite (lookup_ge_None_2 l i) by lia. reflexivity.
Qed.

(** ** The table rows *)

Section TableRows.

Variable rl : ReportLab.
Variable p_style : ParagraphStyle.

Lemma Paragraph_accepted (markup : string) :
  accepts rl p_style markup = true ->
  Paragraph rl markup p_style = inr (Flow {| text := markup; style := p_style |}).
Proof.
  unfold accepts, Paragraph. destruct (Paragraph_raises rl markup p_style); [discriminate|].
  reflexivity.
Qed.

Lemma Paragraph_inr (markup : string) (c : Cell) :
  Paragraph rl markup p_style = inr c ->
  c = Flow {| text := markup; style := p_style |} /\ accepts rl p_style markup = true.
Proof.
  unfold accepts, Paragraph. destruct (Paragraph_raises rl markup p_style); simpl.
  - discriminate.
  - intros [= <-]. auto.
Qed.

Lemma Paragraph_inl (markup : string) (e : Py.Exc) :
  Paragraph rl markup p_style = inl e ->
  exists r, e = Py.Foreign r /\ Paragraph_raises rl markup p_style = Some r.
Proof.
  unfold Paragraph. destruct (Paragraph_raises rl markup p_style) as [r|]; simpl.
  - intros [= <-]. eauto.
  - discriminate.
Qed.

Variables dl il : list string.

Lemma append_item_row_unfold (i : nat) (rows : list Row) :
  append_item_row rl dl il p_style i rows =
  let* left := Paragraph rl (padded dl i) p_style in
  let* right := Paragraph rl (padded il i) p_style in
  Py.ret (rows ++ [[left; right]]).
Proof. unfold append_item_row. rewrite !guarded_getitem. reflexivity. Qed.

Lemma append_item_row_inr (i : nat) (rows rows' : list Row) :
  append_item_row rl dl il p_style i rows = inr rows' ->
  rows' = rows ++ [item_row p_style dl il i]
  /\ accepts rl p_style (padded dl i) = true
  /\ accepts rl p_style (padded il i) = true.
Proof.
  rewrite append_item_row_unfold. intros H.
  apply bind_inr in H as (left & Hl & H). apply bind_inr in H as (right & Hr & H).
  apply Paragraph_inr in Hl as [-> Hl]. apply Paragraph_inr in Hr as [-> Hr].
  injection H as <-. auto.
Qed.

Lemma append_item_row_inl (i : nat) (rows : list Row) (e : Py.Exc) :
  append_item_row rl dl il p_style i rows = inl e ->
  exists r markup, e = Py.Foreign r /\ Paragraph_raises rl markup p_style = Some r.
Proof.
  rewrite append_item_row_unfold. intros H.
  apply bind_inl in H as [H|(left & _ & H)].
  { apply Paragraph_inl in H as (r & -> & H). eauto. }
  apply bind_inl in H as [H|(right & _ & H)].
  { apply Paragraph_inl in H as (r & -> & H). eauto. }
  discriminate.
Qed.

Lemma item_loop_inr (idx : list nat) (rows rows' : list Row) :
  Py.for_each (append_item_row rl dl il p_style) idx rows = inr rows' ->
  rows' = rows ++ map (item_row p_style dl il) idx
  /\ forallb (accepts rl p_style)
             (flat_map (fun i => [padded dl i; padded il i]) idx) = true.
Proof.
  revert rows. induction idx as [|i idx IH]; simpl; intros rows H.
  - injection H as <-. rewrite app_nil_r. auto.
  - apply bind_inr in H as (mid & Hmid & H).
    apply append_item_row_inr in Hmid as (-> & Hl & Hr).
    apply IH in H as [-> Hall]. rewrite <- app_assoc. simpl.
    rewrite Hl, Hr, Hall. auto.
Qed.

Lemma item_loop_inl (idx : list nat) (rows : list Row) (e : Py.Exc) :
  Py.for_each (append_item_row rl dl il p_style) idx rows = inl e ->
  exists r markup, e = Py.Foreign r /\ Paragraph_raises rl markup p_style = Some r.
Proof.
  revert rows. induction idx as [|i idx IH]; simpl; intros rows H; [discriminate|].
  apply bind_inl in H as [H|(mid & _ & H)]; eauto using append_item_row_inl.
Qed.

Lemma item_loop_total (idx : list nat) (rows : list Row) :
  forallb (accepts rl p_style)
          (flat_map (fun i => [padded dl i; padded il i]) idx) = true ->
  Py.for_each (append_item_row rl dl il p_style) idx rows
  = inr (rows ++ map (item_row p_style dl il) idx).
Proof.
  revert rows. induction idx as [|i idx IH]; simpl; intros rows H.
  - rewrite app_nil_r. reflexivity.
  - apply andb_prop in H as [Hl H]. apply andb_prop in H as [Hr H].
    rewrite append_item_row_unfold, (Paragraph_accepted _ Hl), (Paragraph_accepted _ Hr).
    simpl. rewrite IH by assumption. rewrite <- app_assoc. reflexivity.
Qed.

End TableRows.

(** ** The table data *)

Section TableData.

Variable rl : ReportLab.
Variable p_style : ParagraphStyle.
Variable data : Data.

Lemma markup_accepted_split :
  markup_accepted rl data p_style = true <->
  forallb (accepts rl p_style)
    (flat_map (fun i => [padded (Py.split_lines (deliverables data)) i;
                         padded (Py.split_lines (inference data)) i])
              (Py.range (Nat.max (length (Py.split_lines (deliverables data)))
                                 (length (Py.split_lines (inference data))))))
  = true
  /\ accepts rl p_style "<b>TOTAL PAYABLE:</b>" = true
  /\ accepts rl p_style ("<b>" +:+ total_amount data +:+ "</b>") = true.
Proof.
  unfold markup_accepted, table_markups. rewrite forallb_app. simpl.
  rewrite !andb_true_iff. tauto.
Qed.

Lemma build_table_data_total :
  markup_accepted rl data p_style = true ->
  build_table_data rl data p_style = inr (table_rows p_style data).
Proof.
  intros H. apply markup_accepted_split in H as (Hitems & Hl & Hv).
  unfold build_table_data. rewrite (item_loop_total _ _ _ _ _ _ Hitems). simpl.
  rewrite (Paragraph_accepted _ _ _ Hl), (Paragraph_accepted _ _ _ Hv). reflexivity.
Qed.

Lemma build_table_data_inr (rows : list Row) :
  build_table_data rl data p_style = inr rows ->
  rows = table_rows p_style data /\ markup_accepted rl data p_style = true.
Proof.
  unfold build_table_data. intros H.
  apply bind_inr in H as (items & Hitems & H).
  apply bind_inr in H as (label & Hl & H). apply bind_inr in H as (value & Hv & H).
  apply item_loop_inr in Hitems as [-> Hitems].
  apply Paragraph_inr in Hl as [-> Hl]. apply Paragraph_inr in Hv as [-> Hv].
  injection H as <-. split; [reflexivity|].
  apply markup_accepted_split. auto.
Qed.

(** Whatever stops the construction was raised by [Paragraph]. *)
Lemma build_table_data_inl (e : Py.Exc) :
  build_table_data rl data p_style = inl e ->
  exists r markup, e = Py.Foreign r /\ Paragraph_raises rl markup p_style = Some r.
Proof.
  unfold build_table_data. intros H.
  apply bind_inl in H as [H|(items & _ & H)]; [eauto using item_loop_inl|].
  apply bind_inl in H as [H|(label & _ & H)].
  { apply Paragraph_inl in H as (r & -> & H). eauto. }
  apply bind_inl in H as [H|(value & _ & H)].
  { apply Paragraph_inl in H as (r & -> & H). eauto. }
  discriminate.
Qed.

Lemma table_rows_length :
  length (table_rows p_style data)
  = (Nat.max (length (Py.split_lines (deliverables data)))
             (length (Py.split_lines (inference data))) + 2)%nat.
Proof.
  unfold table_rows, Py.range. simpl.
  rewrite length_app, length_map, length_seq. simpl. lia.
Qed.

Lemma table_rows_item (i : nat) :
  (i < Nat.max (length (Py.split_lines (deliverables data)))
               (length (Py.split_lines (inference data))))%nat ->
  table_rows p_style data !! S i
  = Some (item_row p_style (Py.split_lines (deliverables data))
                   (Py.split_lines (inference data)) i).
Proof.
  intros Hi. unfold table_rows, Py.range. simpl.
  rewrite lookup_app_l by (rewrite length_map, length_seq; exact Hi).
  rewrite list_lookup_fmap, lookup_seq_lt by exact Hi. reflexivity.
Qed.

Lemma table_rows_last :
  last (table_rows p_style data) = Some (total_row p_style (total_amount data)).
Proof. unfold table_rows. rewrite app_comm_cons. apply last_snoc. Qed.

End TableData.

Lemma table_rows_cells (p_style : ParagraphStyle) (data : Data) (i : nat) :
  (i < Nat.max (length (Py.split_lines (deliverables data)))
               (length (Py.split_lines (inference data))))%nat ->
  table_cell (table_rows p_style data) (S i) 0
  = Some (padded (Py.split_lines (deliverables data)) i)
  /\ table_cell (table_rows p_style data) (S i) 1
     = Some (padded (Py.split_lines (inference data)) i).
Proof.
  intros Hi. unfold table_cell. rewrite table_rows_item by exact Hi. auto.
Qed.

Lemma padded_Some (l : list string) (i : nat) (x : string) :
  l !! i = Some x -> padded l i = x.
Proof. unfold padded. intros ->. reflexivity. Qed.

Lemma padded_past_end (l : list string) (i : nat) :
  (length l <= i)%nat -> padded l i = "".
Proof. unfold padded. intros H. rewrite lookup_ge_None_2 by exact H. reflexivity. Qed.

(** C1.  When the deliverables and the inference lists have different
    lengths [m] and [n], building the table data never raises an index
    error; it goes through whenever ReportLab parses the cells; and the
    table built has [max m n + 2] rows: the header, then one row per
    position [i < max m n] holding the [i]-th line of each list, with the
    empty string where the shorter list has run out, then the total row. *)
Theorem C1_rows_padded_to_longer_list
    (rl : ReportLab) (data : Data) (p_style : ParagraphStyle) :
  let dl := Py.split_lines (deliverables data) in
  let il := Py.split_lines (inference data) in
  let m := length dl in
  let n := length il in
  m <> n ->
  build_table_data rl data p_style <> inl Py.IndexError
  /\ (markup_accepted rl data p_style = true ->
      exists rows, build_table_data rl data p_style = inr rows)
  /\ forall rows, build_table_data rl data p_style = inr rows ->
       length rows = (Nat.max m n + 2)%nat
       /\ rows !! 0%nat = Some [Str "Deliverables"; Str "Inference"]
       /\ (forall i x, dl !! i = Some x -> table_cell rows (S i) 0 = Some x)
       /\ (forall i x, il !! i = Some x -> table_cell rows (S i) 1 = Some x)
       /\ (forall i, (m <= i < n)%nat -> table_cell rows (S i) 0 = Some "")
       /\ (forall i, (n <= i < m)%nat -> table_cell rows (S i) 1 = Some "")
       /\ rows !! S (Nat.max m n) = Some (total_row p_style (total_amount data)).
Proof.
  intros dl il m n _. split; [|split].
  - intros H. apply build_table_data_inl in H as (r & _ & H & _). discriminate.
  - intros H. eauto using build_table_data_total.
  - intros rows H. apply build_table_data_inr in H as [-> _].
    split; [apply table_rows_length|]. split; [reflexivity|].
    repeat split.
    + intros i x Hx. pose proof (lookup_lt_Some _ _ _ Hx) as Hi.
      destruct (table_rows_cells p_style data i) as [-> _]; [fold dl il m n; lia|].
      f_equal. apply padded_Some, Hx.
    + intros i x Hx. pose proof (lookup_lt_Some _ _ _ Hx) as Hi.
      destruct (table_rows_cells p_style data i) as [_ ->]; [fold dl il m n; lia|].
      f_equal. apply padded_Some, Hx.
    + intros i Hi.
      destruct (table_rows_cells p_style data i) as [-> _]; [fold dl il m n; lia|].
      f_equal. apply padded_past_end. fold dl m. lia.
    + intros i Hi.
      destruct (table_rows_cells p_style data i) as [_ ->]; [fold dl il m n; lia|].
      f_equal. apply padded_past_end. fold il n. lia.
    + pose proof (table_rows_last p_style data) as Hlast.
      rewrite last_lookup, table_rows_length in Hlast. fold dl il m n in Hlast.
      replace (Nat.pred (Nat.max m n + 2)) with (S (Nat.max m n)) in Hlast by lia.
      exact Hlast.
Qed.

Lemma C1_rows_padded_to_longer_list_witness :
  length (Py.split_lines (deliverables Sample.two_and_one))
  <> length (Py.split_lines (inference Sample.two_and_one))
  /\ exists rows,
       build_table_data Sample.reportlab Sample.two_and_one Sample.normal_style
       = inr rows
       /\ length rows = 4%nat
       /\ table_cell rows 2 0 = Some "B"
       /\ table_cell rows 2 1 = Some "".
Proof.
  assert (Hne : length (Py.split_lines (deliverables Sample.two_and_one))
                <> length (Py.split_lines (inference Sample.two_and_one)))
    by (vm_compute; lia).
  split; [exact Hne|].
  destruct (C1_rows_padded_to_longer_list
              Sample.reportlab Sample.two_and_one Sample.normal_style Hne)
    as (_ & Hbuilt & Hrows).
  destruct (Hbuilt eq_refl) as [rows Hrows'].
  exists rows. split; [exact Hrows'|].
  destruct (Hrows rows Hrows') as (Hlen & _ & Hleft & _ & _ & Hpad & _).
  split; [exact Hlen|]. split.
  - apply (Hleft 1%nat "B"). reflexivity.
  - apply (Hpad 1%nat). vm_compute. lia.
Defined.

(** C6.  With deliverables [A; B], inference [X] and total [100], the
    table data is, in order, the header row, the item rows [A | X] and
    [B | empty], and the total row, whose label is the bold
    "TOTAL PAYABLE:" and whose value cell is the bold "100". *)
Theorem C6_worked_example
    (rl : ReportLab) (data : Data) (p_style : ParagraphStyle) :
  Py.split_lines (deliverables data) = ["A"; "B"] ->
  Py.split_lines (inference data) = ["X"] ->
  total_amount data = "100" ->
  markup_accepted rl data p_style = true ->
  build_table_data rl data p_style
  = inr [ [Str "Deliverables"; Str "Inference"];
          [Flow {| text := "A"; style := p_style |};
           Flow {| text := "X"; style := p_style |}];
          [Flow {| text := "B"; style := p_style |};
           Flow {| text := ""; style := p_style |}];
          [Flow {| text := "<b>TOTAL PAYABLE:</b>"; style := p_style |};
           Flow {| text := "<b>100</b>"; style := p_style |}] ].
Proof.
  intros Hd Hi Ht Hok. rewrite (build_table_data_total _ _ _ Hok).
  unfold table_rows. rewrite Hd, Hi, Ht. reflexivity.
Qed.

Lemma C6_worked_example_witness :
  build_table_data Sample.reportlab Sample.two_and_one Sample.normal_style
  = inr [ [Str "Deliverables"; Str "Inference"];
          [Flow {| text := "A"; style := Sample.normal_style |};
           Flow {| text := "X"; style := Sample.normal_style |}];
          [Flow {| text := "B"; style := Sample.normal_style |};
           Flow {| text := ""; style := Sample.normal_style |}];
          [Flow {| text := "<b>TOTAL PAYABLE:</b>"; style := Sample.normal_style |};
           Flow {| text := "<b>100</b>"; style := Sample.normal_style |}] ].
Proof.
  apply (C6_worked_example Sample.reportlab Sample.two_and_one Sample.normal_style);
    reflexivity.
Defined.

(** C9.  Splitting on newlines always gives at least one piece, the empty
    string included, so every table that is built has at least one item
    row: [max m n + 2 >= 3] rows in all, the second of which is an item
    row of two paragraphs. *)
Theorem C9_at_least_one_item_row
    (rl : ReportLab) (data : Data) (p_style : ParagraphStyle) :
  let m := length (Py.split_lines (deliverables data)) in
  let n := length (Py.split_lines (inference data)) in
  (1 <= m)%nat /\ (1 <= n)%nat
  /\ Py.split_lines "" = [""]
  /\ (markup_accepted rl data p_style = true ->
      exists rows, build_table_data rl data p_style = inr rows)
  /\ forall rows, build_table_data rl data p_style = inr rows ->
       length rows = (Nat.max m n + 2)%nat
       /\ (3 <= length rows)%nat
       /\ exists left right, rows !! 1%nat = Some [Flow left; Flow right].
Proof.
  intros m n.
  pose proof (split_lines_length (deliverables data)) as Hm.
  pose proof (split_lines_length (inference data)) as Hn.
  split; [exact Hm|]. split; [exact Hn|]. split; [reflexivity|]. split.
  - intros H. eauto using build_table_data_total.
  - intros rows H. apply build_table_data_inr in H as [-> _].
    rewrite table_rows_length. fold m n. split; [reflexivity|]. split; [lia|].
    rewrite table_rows_item by lia. unfold item_row. eauto.
Qed.

Lemma C9_at_least_one_item_row_witness :
  exists rows,
    build_table_data Sample.reportlab
      {| invoice_title := ""; my_details := ""; client_details := "";
         deliverables := ""; inference := ""; total_amount := "";
         header_font := ""; body_font := "" |} Sample.normal_style = inr rows
    /\ length rows = 3%nat.
Proof.
  destruct (C9_at_least_one_item_row Sample.reportlab
              {| invoice_title := ""; my_details := ""; client_details := "";
                 deliverables := ""; inference := ""; total_amount := "";
                 header_font := ""; body_font := "" |} Sample.normal_style)
    as (_ & _ & _ & Hbuilt & Hrows).
  destruct (Hbuilt eq_refl) as [rows H]. exists rows. split; [exact H|].
  destruct (Hrows rows H) as (Hlen & _). exact Hlen.
Defined.

(** C10.  In every table that is built, the last row has two paragraph
    cells: the label, whose text is the literal "<b>TOTAL PAYABLE:</b>"
    whatever the record holds, and the value, whose text is the record's
    [total_amount] between bold tags and depends on no other field.  Both
    cells carry the paragraph style the table was built with. *)
Theorem C10_total_label_is_fixed
    (rl : ReportLab) (data : Data) (p_style : ParagraphStyle) (rows : list Row) :
  build_table_data rl data p_style = inr rows ->
  exists label value,
    last rows = Some [Flow label; Flow value]
    /\ text label = "<b>TOTAL PAYABLE:</b>"
    /\ text value = "<b>" +:+ total_amount data +:+ "</b>"
    /\ style label = p_style /\ style value = p_style.
Proof.
  intros H. apply build_table_data_inr in H as [-> _].
  rewrite table_rows_last. unfold total_row. eauto 10.
Qed.

Lemma C10_total_label_is_fixed_witness :
  exists label value,
    last (table_rows Sample.normal_style Sample.two_and_one)
    = Some [Flow label; Flow value]
    /\ text label = "<b>TOTAL PAYABLE:</b>"
    /\ text value = "<b>100</b>".
Proof.
  destruct (C10_total_label_is_fixed Sample.reportlab Sample.two_and_one
              Sample.normal_style (table_rows Sample.normal_style Sample.two_and_one)
              eq_refl)
    as (label & value & Hlast & Hl & Hv & _).
  exists label, value. auto.
Defined.

(** ** The page *)

Lemma textLine_fold (ls : list string) (t : TextObject) :
  fold_left textLine ls t
  = {| text_font := text_font t; origin := origin t; lines := lines t ++ ls |}.
Proof.
  revert t. induction ls as [|l ls IH]; intros t; simpl.
  - rewrite app_nil_r. destruct t; reflexivity.
  - rewrite IH. simpl. rewrite <- app_assoc. reflexivity.
Qed.

Lemma setFont_inr (rl : ReportLab) (c c' : Canvas) (name : string) (size : Z) :
  setFont rl c name size = inr c' ->
  setFont_raises rl name = None
  /\ c' = {| filename := filename c; pagesize := pagesize c;
             font := (name, size); ops := ops c ++ [SetFont name size] |}.
Proof.
  unfold setFont. destruct (setFont_raises rl name); simpl; [discriminate|].
  intros [= <-]. auto.
Qed.

Lemma setFont_found (rl : ReportLab) (c : Canvas) (name : string) (size : Z) :
  setFont_raises rl name = None ->
  setFont rl c name size
  = inr {| filename := filename c; pagesize := pagesize c;
           font := (name, size); ops := ops c ++ [SetFont name size] |}.
Proof. unfold setFont. intros ->. reflexivity. Qed.

Section Page.

Variable rl : ReportLab.
Variable data : Data.

(** A page that is drawn consists of exactly the seven operations of
    [page_ops], after whatever the canvas already held. *)
Lemma draw_invoice_inr (c0 c : Canvas) :
  draw_invoice rl data c0 = inr c ->
  exists hf bf rows table_width table_height,
    header_font_used rl data = inr hf
    /\ body_font_used rl data = inr bf
    /\ build_table_data rl data (cell_style bf) = inr rows
    /\ wrapOn rl (invoice_table rl hf bf rows) ((A4 rl).1 - 2 * inch rl) (A4 rl).2
       = inr (table_width, table_height)
    /\ c = {| filename := filename c0; pagesize := pagesize c0;
              font := (bf, 10%Z);
              ops := ops c0 ++ page_ops rl data hf bf rows table_height |}.
Proof.
  unfold draw_invoice. intros H.
  apply bind_inr in H as (hf & Hhf & H). apply bind_inr in H as (bf & Hbf & H).
  apply bind_inr in H as (c1 & H1 & H). apply setFont_inr in H1 as [_ ->].
  apply bind_inr in H as (c2 & H2 & H). apply setFont_inr in H2 as [_ ->].
  apply bind_inr in H as (c3 & H3 & H). apply setFont_inr in H3 as [_ ->].
  apply bind_inr in H as (rows & Hrows & H).
  fold (cell_style bf) in Hrows.
  unfold new_Table, setStyle in H. simpl in H.
  fold (invoice_table rl hf bf rows) in H.
  destruct (wrapOn rl (invoice_table rl hf bf rows) _ _) as [r|[tw th]] eqn:Hwrap;
    [discriminate|].
  unfold drawOn in H.
  destruct (drawOn_raises rl (invoice_table rl hf bf rows)); [discriminate|].
  injection H as <-. exists hf, bf, rows, tw, th.
  split; [exact Hhf|]. split; [exact Hbf|]. split; [exact Hrows|]. split; [exact Hwrap|].
  unfold drawText, drawCentredString, emit, page_ops, text_block. simpl.
  rewrite !textLine_fold. simpl. rewrite <- !app_assoc. reflexivity.
Qed.

(** The page is drawn whenever the library validates and finds the two
    fonts, parses the cells, measures the table and draws it. *)
Lemma draw_invoice_total (c0 : Canvas) (hf bf : string) (table_width table_height : Q) :
  header_font_used rl data = inr hf ->
  body_font_used rl data = inr bf ->
  setFont_raises rl (hf +:+ "-Bold") = None ->
  setFont_raises rl bf = None ->
  markup_accepted rl data (cell_style bf) = true ->
  wrapOn rl (invoice_table rl hf bf (table_rows (cell_style bf) data))
         ((A4 rl).1 - 2 * inch rl) (A4 rl).2
  = inr (table_width, table_height) ->
  drawOn_raises rl (invoice_table rl hf bf (table_rows (cell_style bf) data)) = None ->
  draw_invoice rl data c0
  = inr {| filename := filename c0; pagesize := pagesize c0;
           font := (bf, 10%Z);
           ops := ops c0 ++ page_ops rl data hf bf (table_rows (cell_style bf) data)
                                     table_height |}.
Proof.
  intros Hhf Hbf Hh Hb Hok Hwrap Hdraw. unfold draw_invoice.
  rewrite Hhf, Hbf. simpl.
  rewrite (setFont_found _ _ _ _ Hh). simpl.
  rewrite (setFont_found _ _ _ _ Hb). simpl.
  rewrite (setFont_found _ _ _ _ Hb). simpl.
  fold (cell_style bf). rewrite (build_table_data_total _ _ _ Hok). simpl.
  unfold new_Table, setStyle. simpl.
  fold (invoice_table rl hf bf (table_rows (cell_style bf) data)).
  rewrite Hwrap. unfold drawOn. rewrite Hdraw.
  unfold Py.ret, drawText, drawCentredString, emit, page_ops, text_block. simpl.
  rewrite !textLine_fold. simpl. rewrite <- !app_assoc. reflexivity.
Qed.

End Page.

(** ** Font validation *)

Lemma validate_font_known (rl : ReportLab) (name default : string) :
  name ∈ available_fonts -> validate_font rl name default = inr name.
Proof.
  intros H. unfold validate_font. rewrite bool_decide_eq_true_2 by exact H. reflexivity.
Qed.

Lemma validate_font_unknown (rl : ReportLab) (name default : string) :
  name ∉ available_fonts -> hasFont rl name = inr false ->
  validate_font rl name default = inr default.
Proof.
  intros Hn Hr. unfold validate_font.
  rewrite bool_decide_eq_false_2 by exact Hn. rewrite Hr. reflexivity.
Qed.

Lemma Helvetica_available : "Helvetica" ∈ available_fonts.
Proof. unfold available_fonts. set_solver. Qed.

Lemma Times_Roman_available : "Times-Roman" ∈ available_fonts.
Proof. unfold available_fonts. set_solver. Qed.

Lemma validate_font_raises (rl : ReportLab) (name default : string) (r : Py.Raised) :
  name ∉ available_fonts -> hasFont rl name = inl r ->
  validate_font rl name default = inl (Py.Foreign r).
Proof.
  intros Hn Hr. unfold validate_font.
  rewrite bool_decide_eq_false_2 by exact Hn. rewrite Hr. reflexivity.
Qed.

(** C7.  Every page that is drawn ends with the table, placed at
    [x = inch] and [y = height - 300 - table_height], where [table_height]
    is what [wrapOn] measured for that table: its top edge [y +
    table_height] is [height - 300], whatever the measured height and
    whatever the record, the sender and client blocks included.
    Coordinates are exact rationals. *)
Theorem C7_table_top_is_pinned (rl : ReportLab) (data : Data) (c0 c : Canvas) :
  draw_invoice rl data c0 = inr c ->
  exists table table_width table_height y,
    last (ops c) = Some (DrawTable table (inch rl) y)
    /\ wrapOn rl table ((A4 rl).1 - 2 * inch rl) (A4 rl).2
       = inr (table_width, table_height)
    /\ y = ((A4 rl).2 - 300 - table_height)%Q
    /\ (y + table_height == (A4 rl).2 - 300)%Q.
Proof.
  intros H.
  apply draw_invoice_inr in H as (hf & bf & rows & tw & th & _ & _ & _ & Hwrap & ->).
  exists (invoice_table rl hf bf rows), tw, th, ((A4 rl).2 - 300 - th)%Q.
  split; [|split; [exact Hwrap|split; [reflexivity|ring]]].
  simpl. unfold page_ops.
  change (last (ops c0 ++ ?a :: ?b :: ?c :: ?d :: ?e :: ?f :: [?g]))
    with (last (ops c0 ++ [a; b; c; d; e; f] ++ [g])).
  rewrite app_assoc. apply last_snoc.
Qed.

Lemma C7_table_top_is_pinned_witness :
  exists c table y,
    draw_invoice Sample.reportlab Sample.two_and_one
      (new_Canvas "invoice.pdf" (A4 Sample.reportlab)) = inr c
    /\ last (ops c) = Some (DrawTable table 72 y)
    /\ (y + 88 == (106920 # 127) - 300)%Q.
Proof.
  destruct (draw_invoice Sample.reportlab Sample.two_and_one
              (new_Canvas "invoice.pdf" (A4 Sample.reportlab))) as [e|c] eqn:Hdraw;
    [vm_compute in Hdraw; discriminate|].
  destruct (C7_table_top_is_pinned Sample.reportlab Sample.two_and_one _ c Hdraw)
    as (table & tw & th & y & Hlast & Hwrap & Hy & Htop).
  exists c, table, y. split; [reflexivity|]. split; [exact Hlast|].
  vm_compute in Hdraw. injection Hdraw as <-.
  vm_compute in Hlast. injection Hlast as <- <-. vm_compute. reflexivity.
Defined.

(** ** One click: picker, page, file, message box *)

Section Click.

Variable rl : ReportLab.
Variable desk : Desktop.
Variable data : Data.
Variable w : World.

Lemma generate_cancelled :
  asksaveasfilename desk = "" -> generate_invoice_pdf rl desk data w = w.
Proof. unfold generate_invoice_pdf. intros ->. reflexivity. Qed.

Lemma draw_invoice_canvas (c0 c : Canvas) :
  draw_invoice rl data c0 = inr c ->
  filename c = filename c0 /\ pagesize c = pagesize c0.
Proof.
  intros H.
  apply draw_invoice_inr in H as (hf & bf & rows & tw & th & _ & _ & _ & _ & ->). auto.
Qed.

Hypothesis picked : asksaveasfilename desk <> "".

Lemma generate_draw_failed (e : Py.Exc) :
  draw_invoice rl data (new_Canvas (asksaveasfilename desk) (A4 rl)) = inl e ->
  generate_invoice_pdf rl desk data w
  = {| fs := fs w; log := log w ++ [error_message e] |}.
Proof.
  intros H. unfold generate_invoice_pdf, try_render.
  rewrite (proj2 (String.eqb_neq _ _) picked), H. reflexivity.
Qed.

Lemma generate_saved (c : Canvas) :
  draw_invoice rl data (new_Canvas (asksaveasfilename desk) (A4 rl)) = inr c ->
  write_raises desk (asksaveasfilename desk) = None ->
  generate_invoice_pdf rl desk data w
  = {| fs := <[asksaveasfilename desk := Pdf {| page := A4 rl; content := ops c |}]> (fs w);
       log := log w ++ [success_message] |}.
Proof.
  intros H Hw. unfold generate_invoice_pdf, try_render, save.
  rewrite (proj2 (String.eqb_neq _ _) picked), H.
  destruct (draw_invoice_canvas _ _ H) as [-> ->]. simpl. rewrite Hw. reflexivity.
Qed.

Lemma generate_write_failed (c : Canvas) (r : Py.Raised) (partial : bool) :
  draw_invoice rl data (new_Canvas (asksaveasfilename desk) (A4 rl)) = inr c ->
  write_raises desk (asksaveasfilename desk) = Some (r, partial) ->
  generate_invoice_pdf rl desk data w
  = {| fs := if partial then <[asksaveasfilename desk := Truncated]> (fs w) else fs w;
       log := log w ++ [error_message (Py.Foreign r)] |}.
Proof.
  intros H Hw. unfold generate_invoice_pdf, try_render, save.
  rewrite (proj2 (String.eqb_neq _ _) picked), H.
  destruct (draw_invoice_canvas _ _ H) as [-> _]. simpl. rewrite Hw. reflexivity.
Qed.

End Click.

(** A run that ends in the success box drew the page and wrote it. *)
Lemma generate_success_inv (rl : ReportLab) (desk : Desktop) (data : Data) (w : World) :
  log (generate_invoice_pdf rl desk data w) = log w ++ [success_message] ->
  exists c,
    draw_invoice rl data (new_Canvas (asksaveasfilename desk) (A4 rl)) = inr c
    /\ fs (generate_invoice_pdf rl desk data w)
       = <[asksaveasfilename desk := Pdf {| page := A4 rl; content := ops c |}]> (fs w).
Proof.
  intros H. destruct (decide (asksaveasfilename desk = "")) as [Hc|Hp].
  { rewrite generate_cancelled in H by exact Hc.
    apply (f_equal length) in H. rewrite length_app in H. simpl in H. lia. }
  destruct (draw_invoice rl data (new_Canvas (asksaveasfilename desk) (A4 rl)))
    as [e|c] eqn:Hdraw.
  { rewrite (generate_draw_failed _ _ _ _ Hp _ Hdraw) in H. simpl in H.
    apply app_inv_head in H. discriminate. }
  destruct (write_raises desk (asksaveasfilename desk)) as [[r partial]|] eqn:Hw.
  { rewrite (generate_write_failed _ _ _ _ Hp _ _ _ Hdraw Hw) in H. simpl in H.
    apply app_inv_head in H. discriminate. }
  exists c. split; [reflexivity|].
  rewrite (generate_saved _ _ _ _ Hp _ Hdraw Hw). reflexivity.
Qed.

(** What is drawn does not depend on the canvas's file name. *)
Lemma draw_invoice_content (rl : ReportLab) (data : Data) (c1 c2 c1' c2' : Canvas) :
  ops c1 = ops c2 ->
  draw_invoice rl data c1 = inr c1' -> draw_invoice rl data c2 = inr c2' ->
  ops c1' = ops c2'.
Proof.
  intros Hops H1 H2.
  apply draw_invoice_inr in H1 as (hf1 & bf1 & rows1 & tw1 & th1 & Hh1 & Hb1 & Hr1 & Hw1 & ->).
  apply draw_invoice_inr in H2 as (hf2 & bf2 & rows2 & tw2 & th2 & Hh2 & Hb2 & Hr2 & Hw2 & ->).
  rewrite Hh1 in Hh2. injection Hh2 as <-. rewrite Hb1 in Hb2. injection Hb2 as <-.
  rewrite Hr1 in Hr2. injection Hr2 as <-.
  rewrite Hw1 in Hw2. injection Hw2 as <- <-.
  simpl. rewrite Hops. reflexivity.
Qed.

(** C2.  The fallback is written but not reached.  For a name outside
    the standard list the validation calls [pdfmetrics.hasFont]; when
    that call raises, as it does in a ReportLab whose [pdfmetrics] has no
    such attribute, no default is substituted: the renderer stops with
    that exception before anything is drawn, and a run past the picker
    writes no file and shows the error box carrying the exception's
    message.  This is so for an unknown header font, and for an unknown
    body font once the header font has validated. *)
Theorem C2_unknown_font_is_reported_as_error
    (rl : ReportLab) (desk : Desktop) (data : Data) (w : World) (r : Py.Raised) :
  asksaveasfilename desk <> "" ->
  ((header_font data ∉ available_fonts) /\ hasFont rl (header_font data) = inl r)
  \/ ((header_font data ∈ available_fonts)
      /\ (body_font data ∉ available_fonts) /\ hasFont rl (body_font data) = inl r) ->
  (header_font_used rl data = inl (Py.Foreign r)
   \/ body_font_used rl data = inl (Py.Foreign r))
  /\ (forall c, draw_invoice rl data c = inl (Py.Foreign r))
  /\ generate_invoice_pdf rl desk data w
     = {| fs := fs w;
          log := log w ++ [ShowError "Error"
                   ("An error occurred during PDF generation: " +:+ Py.msg r)] |}.
Proof.
  intros Hp Hunknown.
  assert (Hdraw : forall c, draw_invoice rl data c = inl (Py.Foreign r)).
  { intros c. unfold draw_invoice, header_font_used, body_font_used.
    destruct Hunknown as [[Hn Hr]|(Hh & Hn & Hr)].
    - rewrite (validate_font_raises _ _ _ _ Hn Hr). reflexivity.
    - rewrite (validate_font_known _ _ _ Hh). cbn [Py.bind].
      rewrite (validate_font_raises _ _ _ _ Hn Hr). reflexivity. }
  split; [|split; [exact Hdraw|]].
  - destruct Hunknown as [[Hn Hr]|(_ & Hn & Hr)].
    + left. apply validate_font_raises; assumption.
    + right. apply validate_font_raises; assumption.
  - rewrite (generate_draw_failed rl desk data w Hp _ (Hdraw _)). reflexivity.
Qed.

Lemma C2_unknown_font_is_reported_as_error_witness :
  generate_invoice_pdf Sample.observed (Sample.saving_to "invoice.pdf")
    Sample.unknown_fonts Sample.blank_world
  = {| fs := ∅;
       log := [ShowError "Error"
                 "An error occurred during PDF generation: module 'reportlab.pdfbase.pdfmetrics' has no attribute 'hasFont'"] |}.
Proof.
  assert (Hp : asksaveasfilename (Sample.saving_to "invoice.pdf") <> "") by discriminate.
  assert (Hn : header_font Sample.unknown_fonts ∉ available_fonts)
    by (apply (bool_decide_eq_false_1 (_ ∈ _)); vm_compute; reflexivity).
  destruct (C2_unknown_font_is_reported_as_error Sample.observed
              (Sample.saving_to "invoice.pdf") Sample.unknown_fonts Sample.blank_world
              Sample.no_hasFont Hp (or_introl (conj Hn eq_refl)))
    as (_ & _ & Hrun).
  exact Hrun.
Defined.

(** C3, as amended.  When the picker is cancelled,
    [generate_invoice_pdf] returns at once: the disk is as before and no
    message box is shown.  The record, however, was built by the handler
    before the renderer opened the picker; it is the only trace the click
    leaves, and it is discarded. *)
Theorem C3_cancel_discards_the_record
    (rl : ReportLab) (desk : Desktop) (self : InvoiceApp.t) (data : Data) (w : World) :
  asksaveasfilename desk = "" ->
  generate_invoice_pdf rl desk data w = w
  /\ fs (on_generate_button_click rl desk self w) = fs w
  /\ notifications (on_generate_button_click rl desk self w) = notifications w
  /\ log (on_generate_button_click rl desk self w) = log w ++ [Collected (collect self)].
Proof.
  intros Hc. split; [apply generate_cancelled, Hc|].
  unfold on_generate_button_click. rewrite generate_cancelled by exact Hc.
  simpl. split; [reflexivity|]. split; [|reflexivity].
  unfold notifications. simpl. rewrite List.filter_app. simpl. apply app_nil_r.
Qed.

Lemma C3_cancel_discards_the_record_witness :
  asksaveasfilename Sample.cancelling = ""
  /\ fs (on_generate_button_click Sample.reportlab Sample.cancelling
           Sample.indented_form Sample.blank_world) = ∅
  /\ notifications (on_generate_button_click Sample.reportlab Sample.cancelling
                      Sample.indented_form Sample.blank_world) = [].
Proof.
  split; [reflexivity|].
  destruct (C3_cancel_discards_the_record Sample.reportlab Sample.cancelling
              Sample.indented_form Sample.two_and_one Sample.blank_world eq_refl)
    as (_ & Hfs & Hn & _).
  split; [exact Hfs | exact Hn].
Defined.

(** C3, as stated, fails: a cancelled click has produced a record. *)
Lemma C3_counterexample :
  ~ (forall (rl : ReportLab) (desk : Desktop) (self : InvoiceApp.t) (w : World),
       asksaveasfilename desk = "" ->
       fs (on_generate_button_click rl desk self w) = fs w
       /\ notifications (on_generate_button_click rl desk self w) = notifications w
       /\ forall data,
            ~ In (Collected data)
                 (drop (length (log w)) (log (on_generate_button_click rl desk self w)))).
Proof.
  intros H.
  destruct (H Sample.reportlab Sample.cancelling Sample.indented_form
              Sample.blank_world eq_refl) as (_ & _ & Hnone).
  apply (Hnone (collect Sample.indented_form)). left. reflexivity.
Qed.

(** C4.  Past the picker a run has one of two outcomes, never both and
    always with exactly one message box.  If the page is drawn and the
    write goes through, the file holds the page and the box is the success
    confirmation.  If drawing raises, or the write raises, the box is the
    one error dialog, titled "Error" whatever was raised, whose text is a
    fixed prefix followed by [str(e)]. *)
Theorem C4_success_or_single_error
    (rl : ReportLab) (desk : Desktop) (data : Data) (w : World) :
  asksaveasfilename desk <> "" ->
  let path := asksaveasfilename desk in
  let w' := generate_invoice_pdf rl desk data w in
  (forall c, draw_invoice rl data (new_Canvas path (A4 rl)) = inr c ->
             write_raises desk path = None ->
             fs w' !! path = Some (Pdf {| page := A4 rl; content := ops c |})
             /\ log w' = log w ++ [ShowInfo "Success" "Invoice PDF generated successfully!"])
  /\ (forall e, draw_invoice rl data (new_Canvas path (A4 rl)) = inl e ->
                fs w' = fs w
                /\ log w' = log w ++ [ShowError "Error"
                     ("An error occurred during PDF generation: " +:+ Py.str e)])
  /\ (forall c r partial,
        draw_invoice rl data (new_Canvas path (A4 rl)) = inr c ->
        write_raises desk path = Some (r, partial) ->
        log w' = log w ++ [ShowError "Error"
                   ("An error occurred during PDF generation: " +:+ Py.msg r)])
  /\ ((exists doc, fs w' !! path = Some (Pdf doc)
                   /\ log w' = log w ++ [ShowInfo "Success" "Invoice PDF generated successfully!"])
      \/ (exists e, log w' = log w ++ [ShowError "Error"
                      ("An error occurred during PDF generation: " +:+ Py.str e)]))
  /\ ~ (log w' = log w ++ [ShowInfo "Success" "Invoice PDF generated successfully!"]
        /\ exists title message, log w' = log w ++ [ShowError title message])
  /\ exists box, notifications w' = notifications w ++ [box].
Proof.
  intros Hp path w'. subst path w'.
  assert (Hsaved : forall c,
            draw_invoice rl data (new_Canvas (asksaveasfilename desk) (A4 rl)) = inr c ->
            write_raises desk (asksaveasfilename desk) = None ->
            fs (generate_invoice_pdf rl desk data w) !! asksaveasfilename desk
            = Some (Pdf {| page := A4 rl; content := ops c |})
            /\ log (generate_invoice_pdf rl desk data w) = log w ++ [success_message]).
  { intros c Hd Hw. rewrite (generate_saved _ _ _ _ Hp _ Hd Hw). simpl.
    split; [apply lookup_insert_eq | reflexivity]. }
  assert (Hdraw : forall e,
            draw_invoice rl data (new_Canvas (asksaveasfilename desk) (A4 rl)) = inl e ->
            fs (generate_invoice_pdf rl desk data w) = fs w
            /\ log (generate_invoice_pdf rl desk data w) = log w ++ [error_message e]).
  { intros e Hd. rewrite (generate_draw_failed _ _ _ _ Hp _ Hd). auto. }
  assert (Hwrite : forall c r partial,
            draw_invoice rl data (new_Canvas (asksaveasfilename desk) (A4 rl)) = inr c ->
            write_raises desk (asksaveasfilename desk) = Some (r, partial) ->
            log (generate_invoice_pdf rl desk data w)
            = log w ++ [error_message (Py.Foreign r)]).
  { intros c r partial Hd Hw. rewrite (generate_write_failed _ _ _ _ Hp _ _ _ Hd Hw).
    reflexivity. }
  assert (Hone : (exists doc,
                    fs (generate_invoice_pdf rl desk data w) !! asksaveasfilename desk
                    = Some (Pdf doc)
                    /\ log (generate_invoice_pdf rl desk data w) = log w ++ [success_message])
                 \/ exists e, log (generate_invoice_pdf rl desk data w)
                              = log w ++ [error_message e]).
  { destruct (draw_invoice rl data (new_Canvas (asksaveasfilename desk) (A4 rl)))
      as [e|c] eqn:Hd.
    - right. exists e. apply (Hdraw e eq_refl).
    - destruct (write_raises desk (asksaveasfilename desk)) as [[r partial]|] eqn:Hw.
      + right. exists (Py.Foreign r). apply (Hwrite c r partial eq_refl eq_refl).
      + left. eexists. apply (Hsaved c eq_refl eq_refl). }
  split; [exact Hsaved|]. split; [exact Hdraw|]. split; [exact Hwrite|].
  split; [exact Hone|]. split.
  - intros [Hs (title & message & He)]. rewrite Hs in He.
    apply app_inv_head in He. discriminate.
  - unfold notifications.
    destruct Hone as [(doc & _ & ->)|(e & ->)]; rewrite List.filter_app; simpl; eauto.
Qed.

Lemma C4_success_or_single_error_witness :
  asksaveasfilename (Sample.refused_at "invoice.pdf") <> ""
  /\ log (generate_invoice_pdf Sample.reportlab (Sample.refused_at "invoice.pdf")
            Sample.two_and_one Sample.blank_world)
     = [ShowError "Error"
          "An error occurred during PDF generation: [Errno 13] Permission denied"].
Proof.
  assert (Hp : asksaveasfilename (Sample.refused_at "invoice.pdf") <> "")
    by discriminate.
  split; [exact Hp|].
  destruct (C4_success_or_single_error Sample.reportlab (Sample.refused_at "invoice.pdf")
              Sample.two_and_one Sample.blank_world Hp) as (_ & _ & Hwrite & _).
  destruct (draw_invoice Sample.reportlab Sample.two_and_one
              (new_Canvas (asksaveasfilename (Sample.refused_at "invoice.pdf"))
                          (A4 Sample.reportlab))) as [e|c] eqn:Hdraw;
    [vm_compute in Hdraw; discriminate|].
  exact (Hwrite c Sample.read_only false eq_refl eq_refl).
Defined.

(** C8.  Two runs on the same record that both end in the success box,
    each with its own destination, leave the same document at the two
    paths: the page is a function of the record and the library, not of
    the path.  The second run leaves every other path as it found it. *)
Theorem C8_page_independent_of_path
    (rl : ReportLab) (desk1 desk2 : Desktop) (data : Data) (w1 w2 : World) :
  asksaveasfilename desk1 <> asksaveasfilename desk2 ->
  log (generate_invoice_pdf rl desk1 data w1) = log w1 ++ [success_message] ->
  log (generate_invoice_pdf rl desk2 data w2) = log w2 ++ [success_message] ->
  (exists doc,
     fs (generate_invoice_pdf rl desk1 data w1) !! asksaveasfilename desk1 = Some (Pdf doc)
     /\ fs (generate_invoice_pdf rl desk2 data w2) !! asksaveasfilename desk2 = Some (Pdf doc))
  /\ fs (generate_invoice_pdf rl desk2 data w2) !! asksaveasfilename desk1
     = fs w2 !! asksaveasfilename desk1.
Proof.
  intros Hne H1 H2.
  apply generate_success_inv in H1 as (c1 & Hd1 & ->).
  apply generate_success_inv in H2 as (c2 & Hd2 & ->).
  split.
  - exists {| page := A4 rl; content := ops c1 |}.
    rewrite !lookup_insert_eq. split; [reflexivity|].
    rewrite (draw_invoice_content rl data
               (new_Canvas (asksaveasfilename desk1) (A4 rl))
               (new_Canvas (asksaveasfilename desk2) (A4 rl)) c1 c2 eq_refl Hd1 Hd2).
    reflexivity.
  - apply lookup_insert_ne. congruence.
Qed.

Lemma C8_page_independent_of_path_witness :
  exists doc,
    fs (generate_invoice_pdf Sample.reportlab (Sample.saving_to "b.pdf") Sample.two_and_one
          (generate_invoice_pdf Sample.reportlab (Sample.saving_to "a.pdf")
             Sample.two_and_one Sample.blank_world)) !! "a.pdf" = Some (Pdf doc)
    /\ fs (generate_invoice_pdf Sample.reportlab (Sample.saving_to "b.pdf") Sample.two_and_one
             (generate_invoice_pdf Sample.reportlab (Sample.saving_to "a.pdf")
                Sample.two_and_one Sample.blank_world)) !! "b.pdf" = Some (Pdf doc).
Proof.
  assert (Hne : asksaveasfilename (Sample.saving_to "a.pdf")
                <> asksaveasfilename (Sample.saving_to "b.pdf")) by discriminate.
  destruct (C8_page_independent_of_path Sample.reportlab
              (Sample.saving_to "a.pdf") (Sample.saving_to "b.pdf") Sample.two_and_one
              Sample.blank_world
              (generate_invoice_pdf Sample.reportlab (Sample.saving_to "a.pdf")
                 Sample.two_and_one Sample.blank_world)
              Hne) as [(doc & Ha & Hb) Hkeep].
  - vm_compute. reflexivity.
  - vm_compute. reflexivity.
  - exists doc. split; [exact (eq_trans Hkeep Ha) | exact Hb].
Defined.

(** ** Stripping and splitting *)

Lemma append_assoc (a b c : string) : (a +:+ b) +:+ c = a +:+ (b +:+ c).
Proof.
  induction a as [|x a IH]; [reflexivity|].
  change (String x ((a +:+ b) +:+ c) = String x (a +:+ (b +:+ c))).
  f_equal. exact IH.
Qed.

Lemma blank_append (a b : string) :
  blank a = true -> blank b = true -> blank (a +:+ b) = true.
Proof.
  induction a as [|x a IH]; intros Ha Hb; [exact Hb|].
  change (Py.isspace x && blank (a +:+ b) = true).
  simpl in Ha. apply andb_prop in Ha as [-> Ha]. apply IH; assumption.
Qed.

Lemma lstrip_prefix (s : string) :
  exists pre, s = pre +:+ Py.lstrip s /\ blank pre = true.
Proof.
  induction s as [|c s (pre & Hs & Hpre)].
  - exists "". auto.
  - simpl. destruct (Py.isspace c) eqn:Hc.
    + exists (String c pre). split.
      * change (String c s = String c (pre +:+ Py.lstrip s)). f_equal. exact Hs.
      * simpl. rewrite Hc. exact Hpre.
    + exists "". auto.
Qed.

Lemma rstrip_suffix (s : string) :
  exists post, s = Py.rstrip s +:+ post /\ blank post = true.
Proof.
  induction s as [|c s (post & Hs & Hpost)].
  - exists "". auto.
  - simpl. destruct (Py.rstrip s) as [|a r] eqn:Hr.
    + change (s = post) in Hs. destruct (Py.isspace c) eqn:Hc.
      * exists (String c post). split.
        -- change (String c s = String c post). f_equal. exact Hs.
        -- simpl. rewrite Hc. exact Hpost.
      * exists post. split; [|exact Hpost].
        change (String c s = String c post). f_equal. exact Hs.
    + exists post. split; [|exact Hpost].
      change (String c s = String c (String a r +:+ post)). f_equal. exact Hs.
Qed.

Lemma lstrip_idem (s : string) : Py.lstrip (Py.lstrip s) = Py.lstrip s.
Proof.
  induction s as [|c s IH]; simpl; [reflexivity|].
  destruct (Py.isspace c) eqn:Hc; [exact IH|]. simpl. rewrite Hc. reflexivity.
Qed.

Lemma rstrip_idem (s : string) : Py.rstrip (Py.rstrip s) = Py.rstrip s.
Proof.
  induction s as [|c s IH]; simpl; [reflexivity|].
  destruct (Py.rstrip s) as [|a r] eqn:Hr.
  - destruct (Py.isspace c) eqn:Hc; simpl; [reflexivity|]. rewrite Hc. reflexivity.
  - change (Py.rstrip (String c (String a r)))
      with (match Py.rstrip (String a r) with
            | EmptyString => if Py.isspace c then EmptyString else String c EmptyString
            | String _ _ as r' => String c r'
            end).
    rewrite IH. reflexivity.
Qed.

Lemma rstrip_lstrip (s : string) :
  Py.rstrip s = s -> Py.rstrip (Py.lstrip s) = Py.lstrip s.
Proof.
  induction s as [|c s IH]; simpl; [reflexivity|].
  intros H. destruct (Py.isspace c) eqn:Hc.
  - apply IH. destruct (Py.rstrip s) as [|a r]; [discriminate|]. congruence.
  - simpl. rewrite Hc. exact H.
Qed.

Lemma strip_trimmed (raw : string) : trimmed_of raw (Py.strip raw).
Proof.
  unfold trimmed_of, Py.strip. split; [|split].
  - destruct (rstrip_suffix raw) as (post & Hraw & Hpost).
    destruct (lstrip_prefix (Py.rstrip raw)) as (pre & Hr & Hpre).
    exists pre, post. split; [|auto].
    rewrite <- append_assoc, <- Hr. exact Hraw.
  - apply lstrip_idem.
  - apply rstrip_lstrip, rstrip_idem.
Qed.

Lemma join_split_lines (s : string) : join_lines (Py.split_lines s) = s.
Proof.
  induction s as [|c s IH]; [reflexivity|].
  pose proof (split_lines_length s) as Hlen.
  cbn [Py.split_lines]. destruct (Ascii.eqb c Py.newline) eqn:Hc.
  - apply Ascii.eqb_eq in Hc as ->.
    destruct (Py.split_lines s) as [|piece rest]; [simpl in Hlen; lia|].
    rewrite <- IH. reflexivity.
  - destruct (Py.split_lines s) as [|piece rest]; [simpl in Hlen; lia|].
    destruct rest; rewrite <- IH; reflexivity.
Qed.

(** C5, as amended.  The snapshot is built for every state of the form,
    with no check.  The title, the total and the two font choices are
    passed as they are; each of the four multi-line texts is passed
    without its leading and trailing whitespace, and otherwise unchanged.
    The renderer draws the sender and client blocks, and fills the table
    columns, with the lines of these stripped texts split at newlines, in
    order; putting the lines back together gives the stripped text. *)
Theorem C5_snapshot_strips_then_splits (rl : ReportLab) (self : InvoiceApp.t) :
  let data := collect self in
  (invoice_title data = InvoiceApp.invoice_title self
   /\ total_amount data = InvoiceApp.total_amount self
   /\ header_font data = InvoiceApp.header_font_var self
   /\ body_font data = InvoiceApp.body_font_var self)
  /\ (trimmed_of (InvoiceApp.my_details_text self) (my_details data)
      /\ trimmed_of (InvoiceApp.client_details_text self) (client_details data)
      /\ trimmed_of (InvoiceApp.deliverables_text self) (deliverables data)
      /\ trimmed_of (InvoiceApp.inference_text self) (inference data))
  /\ (forall s, join_lines (Py.split_lines s) = s)
  /\ forall c0 c, draw_invoice rl data c0 = inr c ->
       (exists f o,
          In (DrawText {| text_font := f; origin := o;
                          lines := Py.split_lines
                                     (Py.strip (InvoiceApp.my_details_text self)) |})
             (ops c))
       /\ (exists f o,
             In (DrawText {| text_font := f; origin := o;
                             lines := Py.split_lines
                                        (Py.strip (InvoiceApp.client_details_text self)) |})
                (ops c))
       /\ exists t x y,
            In (DrawTable t x y) (ops c)
            /\ forall i line,
                 (Py.split_lines (Py.strip (InvoiceApp.deliverables_text self)) !! i
                  = Some line -> table_cell (table_data t) (S i) 0 = Some line)
                 /\ (Py.split_lines (Py.strip (InvoiceApp.inference_text self)) !! i
                     = Some line -> table_cell (table_data t) (S i) 1 = Some line).
Proof.
  intros data. split; [subst data; simpl; auto|].
  split; [subst data; simpl; auto using strip_trimmed|].
  split; [exact join_split_lines|].
  intros c0 c H.
  apply draw_invoice_inr in H as (hf & bf & rows & tw & th & _ & _ & Hrows & _ & ->).
  apply build_table_data_inr in Hrows as [-> _]. simpl. split; [|split].
  - eexists _, _. apply in_or_app. right. unfold page_ops, text_block.
    do 3 right. left. reflexivity.
  - eexists _, _. apply in_or_app. right. unfold page_ops, text_block.
    do 5 right. left. reflexivity.
  - eexists _, _, _. split.
    { apply in_or_app. right. unfold page_ops. do 6 right. left. reflexivity. }
    intros i line. simpl. split; intros Hline.
    + pose proof (lookup_lt_Some _ _ _ Hline) as Hi.
      destruct (table_rows_cells (cell_style bf) data i) as [-> _];
        [subst data; simpl; lia|].
      f_equal. apply padded_Some. exact Hline.
    + pose proof (lookup_lt_Some _ _ _ Hline) as Hi.
      destruct (table_rows_cells (cell_style bf) data i) as [_ ->];
        [subst data; simpl; lia|].
      f_equal. apply padded_Some. exact Hline.
Qed.

Lemma C5_snapshot_strips_then_splits_witness :
  exists c,
    draw_invoice Sample.reportlab (collect Sample.indented_form)
      (new_Canvas "invoice.pdf" (A4 Sample.reportlab)) = inr c
    /\ exists t x y, In (DrawTable t x y) (ops c)
                     /\ table_cell (table_data t) 1 0 = Some "A"
                     /\ table_cell (table_data t) 2 0 = Some "B".
Proof.
  destruct (draw_invoice Sample.reportlab (collect Sample.indented_form)
              (new_Canvas "invoice.pdf" (A4 Sample.reportlab))) as [e|c] eqn:Hdraw;
    [vm_compute in Hdraw; discriminate|].
  exists c. split; [reflexivity|].
  destruct (C5_snapshot_strips_then_splits Sample.reportlab Sample.indented_form)
    as (_ & _ & _ & Hpage).
  destruct (Hpage _ c Hdraw) as (_ & _ & t & x & y & Hin & Hcells).
  exists t, x, y. split; [exact Hin|]. split.
  - apply (proj1 (Hcells 0%nat "A")). reflexivity.
  - apply (proj1 (Hcells 1%nat "B")). reflexivity.
Defined.

(** C5, as stated, fails: two spaces typed before the first deliverable
    do not reach the record. *)
Lemma C5_counterexample :
  ~ (forall self : InvoiceApp.t, collect self = untouched self).
Proof.
  intros H. specialize (H Sample.indented_form).
  apply (f_equal deliverables) in H. vm_compute in H. discriminate.
Qed.

(** ** The failure path, run *)

(** A cell the library cannot parse stops the table with the library's
    own exception, and the click ends in the error dialog carrying its
    message; nothing is written. *)
Example broken_markup_is_reported :
  build_table_data Sample.strict_reportlab
    (set_header_font "Helvetica"
       {| invoice_title := "Sales Invoice"; my_details := "Me"; client_details := "You";
          deliverables := "<"; inference := "X"; total_amount := "100";
          header_font := "Helvetica"; body_font := "Times-Roman" |})
    Sample.normal_style
  = inl (Py.Foreign Sample.unclosed_tag)
  /\ generate_invoice_pdf Sample.strict_reportlab (Sample.saving_to "invoice.pdf")
       {| invoice_title := "Sales Invoice"; my_details := "Me"; client_details := "You";
          deliverables := "<"; inference := "X"; total_amount := "100";
          header_font := "Helvetica"; body_font := "Times-Roman" |}
       Sample.blank_world
     = {| fs := ∅;
          log := [ShowError "Error"
                    "An error occurred during PDF generation: paragraph text has an unclosed tag"] |}.
Proof. split; vm_compute; reflexivity. Qed.

(** ** More on stripping and splitting *)

Lemma strip_idem (s : string) : Py.strip (Py.strip s) = Py.strip s.
Proof.
  unfold Py.strip. rewrite (rstrip_lstrip (Py.rstrip s)) by apply rstrip_idem.
  apply lstrip_idem.
Qed.

Lemma rstrip_blank (s : string) : blank s = true -> Py.rstrip s = "".
Proof.
  induction s as [|c s IH]; [reflexivity|]. simpl.
  intros H. apply andb_prop in H as [Hc H]. rewrite (IH H), Hc. reflexivity.
Qed.

Lemma rstrip_empty_blank (s : string) : Py.rstrip s = "" -> blank s = true.
Proof.
  induction s as [|c s IH]; [reflexivity|]. simpl.
  destruct (Py.rstrip s) as [|a r]; [|discriminate].
  destruct (Py.isspace c); [|discriminate]. intros _. simpl. apply IH. reflexivity.
Qed.

Lemma lstrip_blank (s : string) : blank s = true -> Py.lstrip s = "".
Proof.
  induction s as [|c s IH]; [reflexivity|]. simpl.
  intros H. apply andb_prop in H as [-> H]. apply IH, H.
Qed.

Lemma rstrip_append_blank (s b : string) :
  blank b = true -> Py.rstrip (s +:+ b) = Py.rstrip s.
Proof.
  intros Hb. induction s as [|c s IH].
  - apply rstrip_blank, Hb.
  - change (Py.rstrip (String c (s +:+ b)) = Py.rstrip (String c s)).
    simpl. rewrite IH. reflexivity.
Qed.

Lemma lstrip_blank_append (b s : string) :
  blank b = true -> Py.lstrip (b +:+ s) = Py.lstrip s.
Proof.
  induction b as [|c b IH]; intros Hb; [reflexivity|].
  simpl in Hb. apply andb_prop in Hb as [Hc Hb].
  change (Py.lstrip (String c (b +:+ s)) = Py.lstrip s).
  simpl. rewrite Hc. apply IH, Hb.
Qed.

Lemma rstrip_blank_append (b s : string) :
  blank b = true ->
  Py.rstrip (b +:+ s)
  = match Py.rstrip s with
    | EmptyString => EmptyString
    | String _ _ as r => b +:+ r
    end.
Proof.
  induction b as [|c b IH]; intros Hb.
  - change (Py.rstrip s = match Py.rstrip s with
                          | EmptyString => EmptyString
                          | String _ _ as r => r
                          end).
    destruct (Py.rstrip s); reflexivity.
  - simpl in Hb. apply andb_prop in Hb as [Hc Hb].
    change (Py.rstrip (String c (b +:+ s))
            = match Py.rstrip s with
              | EmptyString => EmptyString
              | String _ _ as r => String c (b +:+ r)
              end).
    simpl. rewrite (IH Hb). destruct (Py.rstrip s) as [|a r].
    + rewrite Hc. reflexivity.
    + destruct b; reflexivity.
Qed.

Lemma strip_surrounded (before core after : string) :
  blank before = true -> blank after = true ->
  Py.strip (before +:+ core +:+ after) = Py.strip core.
Proof.
  intros Hb Ha. unfold Py.strip.
  rewrite <- append_assoc, rstrip_append_blank by exact Ha.
  rewrite rstrip_blank_append by exact Hb.
  destruct (Py.rstrip core) as [|a r]; [reflexivity|].
  apply lstrip_blank_append, Hb.
Qed.

Lemma lstrip_length (s : string) :
  (String.length (Py.lstrip s) <= String.length s)%nat.
Proof.
  induction s as [|c s IH]; simpl; [lia|].
  destruct (Py.isspace c); simpl; lia.
Qed.

Lemma isspace_newline : Py.isspace Py.newline = true.
Proof. reflexivity. Qed.

Lemma not_space_not_newline (c : ascii) :
  Py.isspace c = false -> Ascii.eqb c Py.newline = false.
Proof.
  intros H. destruct (Ascii.eqb c Py.newline) eqn:E; [|reflexivity].
  apply Ascii.eqb_eq in E as ->. rewrite isspace_newline in H. discriminate.
Qed.

Lemma head_split_lines (c : ascii) (s : string) :
  Ascii.eqb c Py.newline = false ->
  exists piece, head (Py.split_lines (String c s)) = Some (String c piece).
Proof.
  intros Hc. cbn [Py.split_lines]. rewrite Hc.
  destruct (Py.split_lines s) as [|piece rest]; simpl; eauto.
Qed.

Lemma last_split_lines (s : string) :
  Py.rstrip s = s -> s <> "" ->
  exists c piece, last (Py.split_lines s) = Some (String c piece).
Proof.
  induction s as [|c s IH]; [congruence|]. intros Hr _.
  pose proof (split_lines_length s) as Hlen.
  simpl in Hr. destruct s as [|d s'].
  - simpl in Hr. destruct (Py.isspace c) eqn:Hc; [discriminate|].
    cbn [Py.split_lines]. rewrite (not_space_not_newline _ Hc). simpl. eauto.
  - assert (Hs : Py.rstrip (String d s') = String d s').
    { destruct (Py.rstrip (String d s')) as [|a r].
      - destruct (Py.isspace c); discriminate.
      - congruence. }
    destruct (IH Hs ltac:(discriminate)) as (c' & piece & Hlast).
    clear IH Hr Hs. remember (String d s') as t eqn:Et. clear Et.
    cbn [Py.split_lines]. destruct (Ascii.eqb c Py.newline).
    + destruct (Py.split_lines t) as [|p rest]; [simpl in Hlen; lia|].
      exists c', piece. exact Hlast.
    + destruct (Py.split_lines t) as [|p rest]; [simpl in Hlen; lia|].
      destruct rest as [|q rest].
      * simpl. eauto.
      * exists c', piece. exact Hlast.
Qed.

(** X1.  The interior of a multi-line box alone decides what is
    collected: two forms that agree on the single-line fields, and whose
    multi-line boxes differ only by whitespace before and after the same
    text, give the same record.  In particular the newline a Tk text
    widget appends to what it returns never reaches the record. *)
Theorem X1_collect_ignores_outer_whitespace (f g : InvoiceApp.t) :
  InvoiceApp.invoice_title f = InvoiceApp.invoice_title g ->
  InvoiceApp.total_amount f = InvoiceApp.total_amount g ->
  InvoiceApp.header_font_var f = InvoiceApp.header_font_var g ->
  InvoiceApp.body_font_var f = InvoiceApp.body_font_var g ->
  surrounds (InvoiceApp.my_details_text f) (InvoiceApp.my_details_text g) ->
  surrounds (InvoiceApp.client_details_text f) (InvoiceApp.client_details_text g) ->
  surrounds (InvoiceApp.deliverables_text f) (InvoiceApp.deliverables_text g) ->
  surrounds (InvoiceApp.inference_text f) (InvoiceApp.inference_text g) ->
  collect f = collect g.
Proof.
  intros Ht Ha Hh Hb (a1 & b1 & E1 & ? & ?) (a2 & b2 & E2 & ? & ?)
         (a3 & b3 & E3 & ? & ?) (a4 & b4 & E4 & ? & ?).
  unfold collect. rewrite Ht, Ha, Hh, Hb, E1, E2, E3, E4.
  rewrite !strip_surrounded by assumption. reflexivity.
Qed.

Lemma X1_collect_ignores_outer_whitespace_witness :
  collect Sample.indented_form
  = collect {| InvoiceApp.invoice_title := "Sales Invoice";
               InvoiceApp.my_details_text := "Me";
               InvoiceApp.client_details_text := "You";
               InvoiceApp.deliverables_text := "A" +:+ Sample.nl +:+ "B";
               InvoiceApp.inference_text := "X";
               InvoiceApp.total_amount := "100";
               InvoiceApp.header_font_var := "Helvetica";
               InvoiceApp.body_font_var := "Times-Roman" |}.
Proof.
  apply X1_collect_ignores_outer_whitespace; try reflexivity.
  - exists "", Sample.nl. repeat split; reflexivity.
  - exists "", Sample.nl. repeat split; reflexivity.
  - exists "  ", Sample.nl. repeat split; reflexivity.
  - exists "", Sample.nl. repeat split; reflexivity.
Defined.

(** X2.  Collecting is idempotent: a form holding the fields of a
    collected record is collected to that same record; nothing is
    stripped twice. *)
Theorem X2_collect_idempotent (self : InvoiceApp.t) :
  collect (form_of (collect self)) = collect self.
Proof. unfold collect, form_of. simpl. rewrite !strip_idem. reflexivity. Qed.

Lemma strip_empty_iff_blank (s : string) : Py.strip s = "" <-> blank s = true.
Proof.
  unfold Py.strip. split.
  - intros H. apply rstrip_empty_blank.
    assert (Hb : blank (Py.rstrip s) = true).
    { destruct (lstrip_prefix (Py.rstrip s)) as (pre & E & Hpre).
      rewrite H in E. rewrite E. apply blank_append; [exact Hpre | reflexivity]. }
    rewrite <- rstrip_idem. apply rstrip_blank, Hb.
  - intros H. rewrite (rstrip_blank _ H). reflexivity.
Qed.

(** X3.  A multi-line box is collected as the empty string exactly when
    it holds nothing but whitespace; such a field is rendered as a single
    empty line. *)
Theorem X3_blank_box_is_empty_field (s : string) :
  (Py.strip s = "" <-> blank s = true)
  /\ (blank s = true -> Py.split_lines (Py.strip s) = [""]).
Proof.
  split; [apply strip_empty_iff_blank|].
  intros Hb. rewrite (proj2 (strip_empty_iff_blank s) Hb). reflexivity.
Qed.

Lemma X3_blank_box_is_empty_field_witness :
  Py.split_lines (Py.strip ("  " +:+ Sample.nl +:+ " ")) = [""].
Proof.
  apply (proj2 (X3_blank_box_is_empty_field ("  " +:+ Sample.nl +:+ " "))).
  reflexivity.
Defined.

(** X4.  A multi-line box that holds more than whitespace never yields
    an empty first or last line: the text block, and the table column,
    start and end with a line that has at least one character. *)
Theorem X4_no_empty_outer_lines (s : string) :
  blank s = false ->
  exists c piece d piece',
    head (Py.split_lines (Py.strip s)) = Some (String c piece)
    /\ last (Py.split_lines (Py.strip s)) = Some (String d piece').
Proof.
  intros Hnb. destruct (strip_trimmed s) as (_ & Hl & Hr).
  destruct (Py.strip s) as [|c t] eqn:E.
  { apply strip_empty_iff_blank in E. congruence. }
  assert (Hc : Py.isspace c = false).
  { simpl in Hl. destruct (Py.isspace c) eqn:Hc; [|reflexivity].
    exfalso. pose proof (lstrip_length t) as Hlen.
    rewrite Hl in Hlen. simpl in Hlen. lia. }
  destruct (head_split_lines c t (not_space_not_newline _ Hc)) as (piece & Hhead).
  destruct (last_split_lines (String c t) Hr ltac:(discriminate)) as (d & piece' & Hlast).
  eauto 10.
Qed.

Lemma X4_no_empty_outer_lines_witness :
  exists c piece d piece',
    head (Py.split_lines (Py.strip (InvoiceApp.deliverables_text Sample.indented_form)))
    = Some (String c piece)
    /\ last (Py.split_lines (Py.strip (InvoiceApp.deliverables_text Sample.indented_form)))
       = Some (String d piece').
Proof.
  apply (X4_no_empty_outer_lines (InvoiceApp.deliverables_text Sample.indented_form)).
  reflexivity.
Defined.

(** X5.  Splitting a text at newlines gives one line more than the text
    has newline characters, and no line contains a newline: a text block
    advances once per line of the field, and a table column has one cell
    per line. *)
Theorem X5_one_line_per_newline (s : string) :
  length (Py.split_lines s) = S (count_newlines s)
  /\ Forall (fun line => count_newlines line = 0%nat) (Py.split_lines s).
Proof.
  induction s as [|c s [IHn IHf]]; [split; [reflexivity | repeat constructor]|].
  cbn [Py.split_lines count_newlines]. destruct (Ascii.eqb c Py.newline) eqn:Hc.
  - split; [simpl; rewrite IHn; reflexivity|]. constructor; [reflexivity | exact IHf].
  - destruct (Py.split_lines s) as [|piece rest]; [simpl in IHn; lia|].
    split; [exact IHn|]. inversion IHf as [|? ? Hp Hrest]; subst.
    constructor; [|exact Hrest]. simpl. rewrite Hc. exact Hp.
Qed.

(** ** More on the table *)

Lemma Paragraph_cases (rl : ReportLab) (markup : string) (p_style : ParagraphStyle) :
  Paragraph rl markup p_style
  = match Paragraph_raises rl markup p_style with
    | Some r => inl (Py.Foreign r)
    | None => inr (Flow {| text := markup; style := p_style |})
    end.
Proof. unfold Paragraph. destruct (Paragraph_raises rl markup p_style); reflexivity. Qed.

Lemma first_rejected_app (rl : ReportLab) (p_style : ParagraphStyle) (a b : list string) :
  first_rejected rl p_style (a ++ b)
  = match first_rejected rl p_style a with
    | Some r => Some r
    | None => first_rejected rl p_style b
    end.
Proof.
  induction a as [|m a IH]; simpl; [reflexivity|].
  destruct (Paragraph_raises rl m p_style); [reflexivity | exact IH].
Qed.

Lemma item_loop_closed (rl : ReportLab) (p_style : ParagraphStyle)
    (dl il : list string) (idx : list nat) (rows : list Row) :
  Py.for_each (append_item_row rl dl il p_style) idx rows
  = match first_rejected rl p_style
            (flat_map (fun i => [padded dl i; padded il i]) idx) with
    | Some r => inl (Py.Foreign r)
    | None => inr (rows ++ map (item_row p_style dl il) idx)
    end.
Proof.
  revert rows. induction idx as [|i idx IH]; intros rows.
  - simpl. rewrite app_nil_r. reflexivity.
  - cbn [Py.for_each flat_map app first_rejected].
    rewrite append_item_row_unfold, !Paragraph_cases.
    destruct (Paragraph_raises rl (padded dl i) p_style); [reflexivity|].
    destruct (Paragraph_raises rl (padded il i) p_style); [reflexivity|].
    simpl. rewrite IH.
    destruct (first_rejected rl p_style _); [reflexivity|].
    rewrite <- app_assoc. reflexivity.
Qed.

(** The table data in closed form, failure included. *)
Lemma build_table_data_closed
    (rl : ReportLab) (data : Data) (p_style : ParagraphStyle) :
  build_table_data rl data p_style
  = match first_rejected rl p_style (table_markups data) with
    | Some r => inl (Py.Foreign r)
    | None => inr (table_rows p_style data)
    end.
Proof.
  unfold build_table_data, table_markups. rewrite item_loop_closed, first_rejected_app.
  destruct (first_rejected rl p_style _); [reflexivity|].
  cbn [Py.bind first_rejected]. rewrite !Paragraph_cases.
  destruct (Paragraph_raises rl "<b>TOTAL PAYABLE:</b>" p_style); [reflexivity|].
  cbn [Py.bind].
  destruct (Paragraph_raises rl ("<b>" +:+ total_amount data +:+ "</b>") p_style);
    reflexivity.
Qed.

(** X6.  Building the table data raises exactly what [Paragraph] raises
    on the first markup it rejects, in reading order: row by row, the
    deliverable before its description, then the total label and the
    total value.  When no markup is rejected the result is the full
    table: the header, one row per position of the longer list, the
    total row. *)
Theorem X6_first_rejected_cell_is_reported
    (rl : ReportLab) (data : Data) (p_style : ParagraphStyle) :
  let dl := Py.split_lines (deliverables data) in
  let il := Py.split_lines (inference data) in
  let markups :=
    flat_map (fun i => [padded dl i; padded il i])
             (seq 0 (Nat.max (length dl) (length il)))
    ++ ["<b>TOTAL PAYABLE:</b>"; "<b>" +:+ total_amount data +:+ "</b>"] in
  (forall accepted m rest r,
     markups = accepted ++ m :: rest ->
     Forall (fun a => Paragraph_raises rl a p_style = None) accepted ->
     Paragraph_raises rl m p_style = Some r ->
     build_table_data rl data p_style = inl (Py.Foreign r))
  /\ (Forall (fun a => Paragraph_raises rl a p_style = None) markups ->
      build_table_data rl data p_style
      = inr (header_row
             :: map (item_row p_style dl il) (seq 0 (Nat.max (length dl) (length il)))
             ++ [total_row p_style (total_amount data)])).
Proof.
  intros dl il markups.
  assert (Hskip : forall accepted rest,
            Forall (fun a => Paragraph_raises rl a p_style = None) accepted ->
            first_rejected rl p_style (accepted ++ rest) = first_rejected rl p_style rest).
  { intros accepted rest Hacc. induction Hacc as [|a accepted Ha _ IH]; [reflexivity|].
    simpl. rewrite Ha. exact IH. }
  split.
  - intros accepted m rest r E Hacc Hm. rewrite build_table_data_closed.
    change (table_markups data) with markups. rewrite E, (Hskip _ _ Hacc). simpl.
    rewrite Hm. reflexivity.
  - intros Hall. rewrite build_table_data_closed.
    change (table_markups data) with markups.
    rewrite <- (app_nil_r markups), (Hskip _ _ Hall). reflexivity.
Qed.

Lemma X6_first_rejected_cell_is_reported_witness :
  build_table_data Sample.strict_reportlab
    {| invoice_title := "Sales Invoice"; my_details := "Me"; client_details := "You";
       deliverables := "A"; inference := "<"; total_amount := "<";
       header_font := "Helvetica"; body_font := "Times-Roman" |}
    Sample.normal_style
  = inl (Py.Foreign Sample.unclosed_tag).
Proof.
  apply (proj1 (X6_first_rejected_cell_is_reported Sample.strict_reportlab
                  {| invoice_title := "Sales Invoice"; my_details := "Me";
                     client_details := "You"; deliverables := "A"; inference := "<";
                     total_amount := "<"; header_font := "Helvetica";
                     body_font := "Times-Roman" |} Sample.normal_style)
               ["A"] "<" ["<b>TOTAL PAYABLE:</b>"; "<b><</b>"]).
  - reflexivity.
  - repeat constructor.
  - reflexivity.
Defined.

Lemma last_page_ops (rl : ReportLab) (data : Data) (hf bf : string)
    (rows : list Row) (th : Q) (before : list Op) :
  last (before ++ page_ops rl data hf bf rows th)
  = Some (DrawTable (invoice_table rl hf bf rows) (inch rl) ((A4 rl).2 - 300 - th)%Q).
Proof.
  unfold page_ops.
  change (last (before ++ ?a :: ?b :: ?c :: ?d :: ?e :: ?f :: [?g]))
    with (last (before ++ [a; b; c; d; e; f] ++ [g])).
  rewrite app_assoc. apply last_snoc.
Qed.

Lemma table_rows_shape (p_style : ParagraphStyle) (data : Data) :
  exists body,
    table_rows p_style data = header_row :: body
    /\ Forall (fun row => length row = 2%nat) body
    /\ Forall (Forall (is_paragraph_in p_style)) body.
Proof.
  unfold table_rows. eexists. split; [reflexivity|]. split.
  - apply Forall_app. split; [|repeat constructor].
    apply Forall_forall. intros row Hin. apply list_elem_of_In, in_map_iff in Hin as (i & <- & _).
    reflexivity.
  - apply Forall_app. split.
    + apply Forall_forall. intros row Hin.
      apply list_elem_of_In, in_map_iff in Hin as (i & <- & _).
      unfold item_row, is_paragraph_in. repeat constructor; eauto.
    + unfold total_row, is_paragraph_in. repeat constructor; eauto.
Qed.

(** X7.  The table of every page that is drawn is rectangular: it has
    two column widths and every row has two cells.  The cells of its
    first row are plain strings; every other cell is a [Paragraph] in the
    one cell style, whose font is the validated body font at size 10 with
    leading 12. *)
Theorem X7_table_is_rectangular (rl : ReportLab) (data : Data) (c0 c : Canvas) :
  draw_invoice rl data c0 = inr c ->
  exists t x y bf header body,
    last (ops c) = Some (DrawTable t x y)
    /\ body_font_used rl data = inr bf
    /\ length (colWidths t) = 2%nat
    /\ table_data t = header :: body
    /\ Forall (fun row => length row = length (colWidths t)) (table_data t)
    /\ Forall is_plain_string header
    /\ Forall (Forall (is_paragraph_in
                         {| fontName := bf; fontSize := 10; leading := 12 |})) body.
Proof.
  intros H.
  apply draw_invoice_inr in H as (hf & bf & rows & tw & th & _ & Hbf & Hrows & _ & ->).
  apply build_table_data_inr in Hrows as [-> _].
  destruct (table_rows_shape (cell_style bf) data) as (body & E & Hlen & Hpar).
  exists (invoice_table rl hf bf (table_rows (cell_style bf) data)).
  eexists _, _, bf, header_row, body.
  split; [apply last_page_ops|]. split; [exact Hbf|]. split; [reflexivity|].
  split; [exact E|]. split; [|split].
  - simpl. rewrite E. constructor; [reflexivity | exact Hlen].
  - unfold header_row, is_plain_string. repeat constructor; eauto.
  - exact Hpar.
Qed.

Lemma X7_table_is_rectangular_witness :
  exists c t x y,
    draw_invoice Sample.reportlab Sample.two_and_one
      (new_Canvas "invoice.pdf" (A4 Sample.reportlab)) = inr c
    /\ last (ops c) = Some (DrawTable t x y)
    /\ Forall (fun row => length row = length (colWidths t)) (table_data t).
Proof.
  destruct (draw_invoice Sample.reportlab Sample.two_and_one
              (new_Canvas "invoice.pdf" (A4 Sample.reportlab))) as [e|c] eqn:Hdraw;
    [vm_compute in Hdraw; discriminate|].
  destruct (X7_table_is_rectangular Sample.reportlab Sample.two_and_one _ c Hdraw)
    as (t & x & y & bf & header & body & Hlast & _ & _ & _ & Hrect & _).
  exists c, t, x, y. split; [reflexivity|]. split; [exact Hlast | exact Hrect].
Defined.

(** ** More on the page *)

Lemma first_rejected_accepted (rl : ReportLab) (p_style : ParagraphStyle)
    (markups : list string) :
  first_rejected rl p_style markups = None
  <-> forallb (accepts rl p_style) markups = true.
Proof.
  induction markups as [|m markups IH]; simpl; [tauto|].
  unfold accepts at 1. destruct (Paragraph_raises rl m p_style); simpl; [|exact IH].
  split; discriminate.
Qed.

Lemma setFont_cases (rl : ReportLab) (c : Canvas) (name : string) (size : Z) :
  setFont rl c name size
  = match setFont_raises rl name with
    | Some r => inl (Py.Foreign r)
    | None => inr {| filename := filename c; pagesize := pagesize c;
                     font := (name, size); ops := ops c ++ [SetFont name size] |}
    end.
Proof. unfold setFont. destruct (setFont_raises rl name); reflexivity. Qed.

(** The renderer step by step: each library call in the order the source
    makes it, the first one that raises deciding the outcome. *)
Lemma draw_invoice_closed (rl : ReportLab) (data : Data) (c0 : Canvas) :
  draw_invoice rl data c0
  = match header_font_used rl data with
    | inl e => inl e
    | inr hf =>
    match body_font_used rl data with
    | inl e => inl e
    | inr bf =>
    match setFont_raises rl (hf +:+ "-Bold") with
    | Some r => inl (Py.Foreign r)
    | None =>
    match setFont_raises rl bf with
    | Some r => inl (Py.Foreign r)
    | None =>
    match first_rejected rl (cell_style bf) (table_markups data) with
    | Some r => inl (Py.Foreign r)
    | None =>
    match wrapOn rl (invoice_table rl hf bf (table_rows (cell_style bf) data))
                 ((A4 rl).1 - 2 * inch rl) (A4 rl).2 with
    | inl r => inl (Py.Foreign r)
    | inr (_, th) =>
    match drawOn_raises rl (invoice_table rl hf bf (table_rows (cell_style bf) data)) with
    | Some r => inl (Py.Foreign r)
    | None =>
        inr {| filename := filename c0; pagesize := pagesize c0;
               font := (bf, 10%Z);
               ops := ops c0 ++ page_ops rl data hf bf
                                         (table_rows (cell_style bf) data) th |}
    end end end end end end end.
Proof.
  unfold draw_invoice.
  destruct (header_font_used rl data) as [e|hf]; [reflexivity|].
  destruct (body_font_used rl data) as [e|bf]; [reflexivity|].
  cbn [Py.bind]. rewrite setFont_cases.
  destruct (setFont_raises rl (hf +:+ "-Bold")); [reflexivity|].
  cbn [Py.bind]. rewrite setFont_cases.
  destruct (setFont_raises rl bf) eqn:Hb; [reflexivity|].
  cbn [Py.bind]. rewrite setFont_cases, Hb. cbn [Py.bind].
  fold (cell_style bf). rewrite build_table_data_closed.
  destruct (first_rejected rl (cell_style bf) (table_markups data)); [reflexivity|].
  cbn [Py.bind]. unfold new_Table, setStyle. simpl.
  fold (invoice_table rl hf bf (table_rows (cell_style bf) data)).
  destruct (wrapOn rl _ _ _) as [r|[tw th]]; [reflexivity|].
  unfold drawOn.
  destruct (drawOn_raises rl (invoice_table rl hf bf (table_rows (cell_style bf) data)));
    [reflexivity|].
  unfold Py.ret, drawText, drawCentredString, emit, page_ops, text_block. simpl.
  rewrite !textLine_fold. simpl. rewrite <- !app_assoc. reflexivity.
Qed.

Lemma validate_font_inl (rl : ReportLab) (name default : string) (e : Py.Exc) :
  validate_font rl name default = inl e ->
  exists r, e = Py.Foreign r /\ hasFont rl name = inl r.
Proof.
  unfold validate_font. destruct (bool_decide (name ∈ available_fonts)); [discriminate|].
  destruct (hasFont rl name) as [r|[|]]; try discriminate.
  intros [= <-]. eauto.
Qed.

(** X8.  The page is drawn exactly when every library call of the
    renderer goes through: both font names validate, [setFont] finds the
    bold header face and the body font, [Paragraph] parses every cell,
    [wrapOn] measures the table and [drawOn] finds the fonts of the table
    style.  The canvas then holds what it held before followed by the
    seven operations of the page, keeps its file name and page size, and
    is left in the body font at size 10. *)
Theorem X8_page_drawn_iff_all_calls_succeed
    (rl : ReportLab) (data : Data) (c0 c : Canvas) :
  draw_invoice rl data c0 = inr c
  <-> exists hf bf table_width table_height,
        header_font_used rl data = inr hf
        /\ body_font_used rl data = inr bf
        /\ setFont_raises rl (hf +:+ "-Bold") = None
        /\ setFont_raises rl bf = None
        /\ markup_accepted rl data (cell_style bf) = true
        /\ wrapOn rl (invoice_table rl hf bf (table_rows (cell_style bf) data))
                  ((A4 rl).1 - 2 * inch rl) (A4 rl).2
           = inr (table_width, table_height)
        /\ drawOn_raises rl (invoice_table rl hf bf (table_rows (cell_style bf) data))
           = None
        /\ c = {| filename := filename c0; pagesize := pagesize c0;
                  font := (bf, 10%Z);
                  ops := ops c0 ++ page_ops rl data hf bf
                                            (table_rows (cell_style bf) data)
                                            table_height |}.
Proof.
  split.
  - rewrite draw_invoice_closed.
    destruct (header_font_used rl data) as [e|hf]; [discriminate|].
    destruct (body_font_used rl data) as [e|bf]; [discriminate|].
    destruct (setFont_raises rl (hf +:+ "-Bold")) eqn:Hh; [discriminate|].
    destruct (setFont_raises rl bf) eqn:Hb; [discriminate|].
    destruct (first_rejected rl (cell_style bf) (table_markups data)) eqn:Hm;
      [discriminate|].
    destruct (wrapOn rl _ _ _) as [r|[tw th]] eqn:Hw; [discriminate|].
    destruct (drawOn_raises rl _) eqn:Hd; [discriminate|].
    intros [= <-]. exists hf, bf, tw, th.
    repeat (split; [first [reflexivity | assumption]|]).
    split; [|split; [exact Hw | split; [exact Hd | reflexivity]]].
    apply first_rejected_accepted, Hm.
  - intros (hf & bf & tw & th & Hhf & Hbf & Hh & Hb & Hm & Hw & Hd & ->).
    apply (draw_invoice_total rl data c0 hf bf tw th); assumption.
Qed.

(** The page of the worked example is drawn by the library as observed:
    Courier-Bold and Helvetica-Bold are standard fonts. *)
Lemma X8_page_drawn_iff_all_calls_succeed_witness :
  exists c,
    draw_invoice Sample.observed Sample.two_and_one
      (new_Canvas "invoice.pdf" (A4 Sample.observed)) = inr c
    /\ length (ops c) = 7%nat.
Proof.
  eexists. split.
  - apply (proj2 (X8_page_drawn_iff_all_calls_succeed Sample.observed Sample.two_and_one
                    (new_Canvas "invoice.pdf" (A4 Sample.observed)) _)).
    exists "Courier", "Helvetica". eexists _, _.
    repeat (split; [vm_compute; reflexivity|]). reflexivity.
  - reflexivity.
Defined.

(** X9.  When the renderer fails, what it raises is what the first
    failing library call raised, in the order of the source: validating
    the header font, validating the body font, setting the bold header
    face, setting the body font, parsing the cells, measuring the table,
    drawing the table.  An earlier failure hides every later one, and
    nothing but a library exception is ever raised: never an index
    error. *)
Theorem X9_first_failing_call_is_reported
    (rl : ReportLab) (data : Data) (c0 : Canvas) :
  (forall e, header_font_used rl data = inl e -> draw_invoice rl data c0 = inl e)
  /\ (forall hf, header_font_used rl data = inr hf ->
      (forall e, body_font_used rl data = inl e -> draw_invoice rl data c0 = inl e)
      /\ forall bf, body_font_used rl data = inr bf ->
         (forall r, setFont_raises rl (hf +:+ "-Bold") = Some r ->
                    draw_invoice rl data c0 = inl (Py.Foreign r))
         /\ (setFont_raises rl (hf +:+ "-Bold") = None ->
             (forall r, setFont_raises rl bf = Some r ->
                        draw_invoice rl data c0 = inl (Py.Foreign r))
             /\ (setFont_raises rl bf = None ->
                 (forall e, build_table_data rl data (cell_style bf) = inl e ->
                            draw_invoice rl data c0 = inl e)
                 /\ forall rows,
                      build_table_data rl data (cell_style bf) = inr rows ->
                      (forall r,
                         wrapOn rl (invoice_table rl hf bf rows)
                                ((A4 rl).1 - 2 * inch rl) (A4 rl).2 = inl r ->
                         draw_invoice rl data c0 = inl (Py.Foreign r))
                      /\ (forall size r,
                            wrapOn rl (invoice_table rl hf bf rows)
                                   ((A4 rl).1 - 2 * inch rl) (A4 rl).2 = inr size ->
                            drawOn_raises rl (invoice_table rl hf bf rows) = Some r ->
                            draw_invoice rl data c0 = inl (Py.Foreign r)))))
  /\ (forall e, draw_invoice rl data c0 = inl e -> exists r, e = Py.Foreign r).
Proof.
  split; [|split].
  - intros e H. rewrite draw_invoice_closed, H. reflexivity.
  - intros hf Hhf. split.
    { intros e H. rewrite draw_invoice_closed, Hhf, H. reflexivity. }
    intros bf Hbf. split.
    { intros r H. rewrite draw_invoice_closed, Hhf, Hbf, H. reflexivity. }
    intros Hh. split.
    { intros r H. rewrite draw_invoice_closed, Hhf, Hbf, Hh, H. reflexivity. }
    intros Hb. split.
    + intros e H. rewrite draw_invoice_closed, Hhf, Hbf, Hh, Hb.
      rewrite build_table_data_closed in H.
      destruct (first_rejected rl (cell_style bf) (table_markups data));
        [injection H as <-; reflexivity | discriminate].
    + intros rows H. rewrite build_table_data_closed in H.
      destruct (first_rejected rl (cell_style bf) (table_markups data)) eqn:Hm;
        [discriminate|].
      injection H as <-. split.
      * intros r Hw. rewrite draw_invoice_closed, Hhf, Hbf, Hh, Hb, Hm, Hw. reflexivity.
      * intros [tw th] r Hw Hd.
        rewrite draw_invoice_closed, Hhf, Hbf, Hh, Hb, Hm, Hw, Hd. reflexivity.
  - intros e. rewrite draw_invoice_closed.
    destruct (header_font_used rl data) as [e'|hf] eqn:Hhf.
    { intros [= <-]. apply validate_font_inl in Hhf as (r & -> & _). eauto. }
    destruct (body_font_used rl data) as [e'|bf] eqn:Hbf.
    { intros [= <-]. apply validate_font_inl in Hbf as (r & -> & _). eauto. }
    destruct (setFont_raises rl (hf +:+ "-Bold")); [intros [= <-]; eauto|].
    destruct (setFont_raises rl bf); [intros [= <-]; eauto|].
    destruct (first_rejected rl (cell_style bf) (table_markups data));
      [intros [= <-]; eauto|].
    destruct (wrapOn rl _ _ _) as [r|[tw th]]; [intros [= <-]; eauto|].
    destruct (drawOn_raises rl _); [intros [= <-]; eauto | discriminate].
Qed.

(** With the font selections the form starts with, every earlier call
    goes through and drawing the table raises: its style names the font
    "Times-Roman-Bold" for the total row, which is not a font. *)
Lemma X9_first_failing_call_is_reported_witness :
  draw_invoice Sample.observed Sample.default_fonts
    (new_Canvas "invoice.pdf" (A4 Sample.observed))
  = inl (Py.Foreign (Sample.font_not_found "Times-Roman-Bold")).
Proof.
  destruct (X9_first_failing_call_is_reported Sample.observed Sample.default_fonts
              (new_Canvas "invoice.pdf" (A4 Sample.observed)))
    as (_ & Hsteps & _).
  destruct (Hsteps "Helvetica" eq_refl) as (_ & Hbody).
  destruct (Hbody "Times-Roman" eq_refl) as (_ & Hface).
  destruct (Hface eq_refl) as (_ & Hfont).
  destruct (Hfont eq_refl) as (_ & Htable).
  destruct (Htable (table_rows (cell_style "Times-Roman") Sample.default_fonts) eq_refl)
    as (_ & Hdraw).
  eapply Hdraw; vm_compute; reflexivity.
Defined.

(** X10.  On every page that is drawn the table has two columns of equal
    width which together take exactly the width handed to [wrapOn], the
    page width less one inch on either side: the table starts one inch
    from the left edge and ends one inch from the right edge. *)
Theorem X10_table_spans_the_margins (rl : ReportLab) (data : Data) (c0 c : Canvas) :
  draw_invoice rl data c0 = inr c ->
  exists t y left right table_width table_height,
    last (ops c) = Some (DrawTable t (inch rl) y)
    /\ colWidths t = [left; right]
    /\ left = right
    /\ wrapOn rl t ((A4 rl).1 - 2 * inch rl) (A4 rl).2 = inr (table_width, table_height)
    /\ (table_width_of t == (A4 rl).1 - 2 * inch rl)%Q
    /\ (inch rl + table_width_of t == (A4 rl).1 - inch rl)%Q.
Proof.
  intros H.
  apply draw_invoice_inr in H as (hf & bf & rows & tw & th & _ & _ & _ & Hw & ->).
  exists (invoice_table rl hf bf rows). eexists _, _, _, tw, th.
  split; [apply last_page_ops|]. split; [reflexivity|]. split; [reflexivity|].
  split; [exact Hw|]. unfold table_width_of. simpl. split; field.
Qed.

Lemma X10_table_spans_the_margins_witness :
  exists c t y,
    draw_invoice Sample.reportlab Sample.two_and_one
      (new_Canvas "invoice.pdf" (A4 Sample.reportlab)) = inr c
    /\ last (ops c) = Some (DrawTable t 72 y)
    /\ (72 + table_width_of t == (75600 # 127) - 72)%Q.
Proof.
  destruct (draw_invoice Sample.reportlab Sample.two_and_one
              (new_Canvas "invoice.pdf" (A4 Sample.reportlab))) as [e|c] eqn:Hdraw;
    [vm_compute in Hdraw; discriminate|].
  destruct (X10_table_spans_the_margins Sample.reportlab Sample.two_and_one _ c Hdraw)
    as (t & y & l & r & tw & th & Hlast & _ & _ & _ & _ & Hspan).
  exists c, t, y. split; [reflexivity|]. split; [exact Hlast | exact Hspan].
Defined.

(** X11.  A page that is drawn adds exactly seven operations, in this
    order: the header font, the upper-cased title centred on the page
    width, the body font, the sender block, the body font again, the
    client block, the table.  The two blocks start at the same height in
    the same font, the sender block one inch from the left edge and the
    client block three and a half inches from the right edge; the title
    sits 80 points above their first line, which is 150 points above the
    top edge of the table. *)
Theorem X11_page_layout (rl : ReportLab) (data : Data) (c0 c : Canvas) :
  draw_invoice rl data c0 = inr c ->
  exists hf bf title_x title_y sender client t y table_width table_height,
    ops c = ops c0 ++ [ SetFont (hf +:+ "-Bold") 36;
                        DrawCentredString title_x title_y (upper rl (invoice_title data));
                        SetFont bf 10; DrawText sender;
                        SetFont bf 10; DrawText client;
                        DrawTable t (inch rl) y ]
    /\ wrapOn rl t ((A4 rl).1 - 2 * inch rl) (A4 rl).2 = inr (table_width, table_height)
    /\ (title_x == (A4 rl).1 / 2)%Q
    /\ text_font sender = (bf, 10%Z) /\ text_font client = (bf, 10%Z)
    /\ lines sender = Py.split_lines (my_details data)
    /\ lines client = Py.split_lines (client_details data)
    /\ (origin sender).1 = inch rl
    /\ ((origin client).1 + (7 # 2) * inch rl == (A4 rl).1)%Q
    /\ (origin sender).2 = (origin client).2
    /\ (title_y - (origin sender).2 == 80)%Q
    /\ ((origin sender).2 - (y + table_height) == 150)%Q.
Proof.
  intros H.
  apply draw_invoice_inr in H as (hf & bf & rows & tw & th & _ & _ & _ & Hw & ->).
  exists hf, bf. eexists _, _, _, _. exists (invoice_table rl hf bf rows). eexists _, tw, th.
  split; [reflexivity|]. split; [exact Hw|]. simpl.
  split; [reflexivity|]. repeat (split; [reflexivity|]).
  split; [ring|]. split; [reflexivity|]. split; ring.
Qed.

Lemma X11_page_layout_witness :
  exists c, draw_invoice Sample.reportlab Sample.two_and_one
              (new_Canvas "invoice.pdf" (A4 Sample.reportlab)) = inr c
            /\ length (ops c) = 7%nat.
Proof.
  destruct (draw_invoice Sample.reportlab Sample.two_and_one
              (new_Canvas "invoice.pdf" (A4 Sample.reportlab))) as [e|c] eqn:Hdraw;
    [vm_compute in Hdraw; discriminate|].
  destruct (X11_page_layout Sample.reportlab Sample.two_and_one _ c Hdraw)
    as (hf & bf & tx & ty & sender & client & t & y & tw & th & Hops & _).
  exists c. split; [reflexivity|]. rewrite Hops. reflexivity.
Defined.

(** X12.  A font name offered by the two read-only comboboxes of the form
    is never replaced: the renderer uses it as it is, without asking the
    library whether it is registered, whatever the library would have
    answered or raised. *)
Theorem X12_offered_fonts_are_used_as_chosen (rl : ReportLab) (self : InvoiceApp.t) :
  (InvoiceApp.header_font_var self ∈ available_fonts_reportlab ->
     header_font_used rl (collect self) = inr (InvoiceApp.header_font_var self))
  /\ (InvoiceApp.body_font_var self ∈ available_fonts_reportlab ->
      body_font_used rl (collect self) = inr (InvoiceApp.body_font_var self)).
Proof.
  split; intros H; apply validate_font_known; exact H.
Qed.

Lemma X12_offered_fonts_are_used_as_chosen_witness :
  header_font_used
    {| inch := 72; A4 := (75600 # 127, 106920 # 127);
       hasFont := fun _ => inl Sample.unclosed_tag;
       setFont_raises := fun _ => None; Paragraph_raises := fun _ _ => None;
       wrapOn := fun _ w _ => inr (w, 0%Q); drawOn_raises := fun _ => None;
       upper := fun s => s |}
    (collect Sample.indented_form) = inr "Helvetica".
Proof.
  apply (proj1 (X12_offered_fonts_are_used_as_chosen _ Sample.indented_form)).
  apply (bool_decide_eq_true_1 (_ ∈ _)). vm_compute. reflexivity.
Defined.

(** ** More on one click *)

(** The four ways a run can go. *)
Lemma generate_cases (rl : ReportLab) (desk : Desktop) (data : Data) (w : World) :
  (asksaveasfilename desk = "" /\ generate_invoice_pdf rl desk data w = w)
  \/ (asksaveasfilename desk <> ""
      /\ exists e,
           draw_invoice rl data (new_Canvas (asksaveasfilename desk) (A4 rl)) = inl e
           /\ generate_invoice_pdf rl desk data w
              = {| fs := fs w; log := log w ++ [error_message e] |})
  \/ (asksaveasfilename desk <> ""
      /\ exists c r partial,
           draw_invoice rl data (new_Canvas (asksaveasfilename desk) (A4 rl)) = inr c
           /\ write_raises desk (asksaveasfilename desk) = Some (r, partial)
           /\ generate_invoice_pdf rl desk data w
              = {| fs := if partial
                         then <[asksaveasfilename desk := Truncated]> (fs w) else fs w;
                   log := log w ++ [error_message (Py.Foreign r)] |})
  \/ (asksaveasfilename desk <> ""
      /\ exists c,
           draw_invoice rl data (new_Canvas (asksaveasfilename desk) (A4 rl)) = inr c
           /\ write_raises desk (asksaveasfilename desk) = None
           /\ generate_invoice_pdf rl desk data w
              = {| fs := <[asksaveasfilename desk :=
                             Pdf {| page := A4 rl; content := ops c |}]> (fs w);
                   log := log w ++ [success_message] |}).
Proof.
  destruct (decide (asksaveasfilename desk = "")) as [Hc|Hp].
  { left. split; [exact Hc | apply generate_cancelled, Hc]. }
  right.
  destruct (draw_invoice rl data (new_Canvas (asksaveasfilename desk) (A4 rl)))
    as [e|c] eqn:Hd.
  { left. split; [exact Hp|]. exists e. split; [reflexivity|].
    apply generate_draw_failed; assumption. }
  right.
  destruct (write_raises desk (asksaveasfilename desk)) as [[r partial]|] eqn:Hw.
  - left. split; [exact Hp|]. exists c, r, partial. split; [reflexivity|].
    split; [reflexivity|]. apply (generate_write_failed _ _ _ _ Hp c); assumption.
  - right. split; [exact Hp|]. exists c. split; [reflexivity|]. split; [reflexivity|].
    apply (generate_saved _ _ _ _ Hp c); assumption.
Qed.

(** X13.  A run touches no path but the one the user picked: every other
    file is after the run what it was before. *)
Theorem X13_other_paths_untouched
    (rl : ReportLab) (desk : Desktop) (data : Data) (w : World) (p : string) :
  p <> asksaveasfilename desk ->
  fs (generate_invoice_pdf rl desk data w) !! p = fs w !! p.
Proof.
  intros Hp.
  destruct (generate_cases rl desk data w)
    as [[_ ->]|[(_ & e & _ & ->)|[(_ & c & r & partial & _ & _ & ->)|(_ & c & _ & _ & ->)]]];
    simpl; try reflexivity.
  - destruct partial; [|reflexivity]. apply lookup_insert_ne. congruence.
  - apply lookup_insert_ne. congruence.
Qed.

Lemma X13_other_paths_untouched_witness :
  fs (generate_invoice_pdf Sample.reportlab (Sample.saving_to "b.pdf") Sample.two_and_one
        {| fs := {[ "a.pdf" := Truncated ]}; log := [] |}) !! "a.pdf"
  = Some Truncated.
Proof.
  rewrite (X13_other_paths_untouched Sample.reportlab (Sample.saving_to "b.pdf")
             Sample.two_and_one {| fs := {[ "a.pdf" := Truncated ]}; log := [] |} "a.pdf")
    by discriminate.
  reflexivity.
Defined.

(** X14.  Every click leaves exactly one record in the log, followed by
    no message box when the picker was cancelled and by exactly one
    message box otherwise; what the log held before is kept. *)
Theorem X14_one_record_and_at_most_one_box
    (rl : ReportLab) (desk : Desktop) (self : InvoiceApp.t) (w : World) :
  exists boxes,
    log (on_generate_button_click rl desk self w)
    = log w ++ Collected (collect self) :: boxes
    /\ Forall (fun e => is_notification e = true) boxes
    /\ (asksaveasfilename desk = "" -> boxes = [])
    /\ (asksaveasfilename desk <> "" -> length boxes = 1%nat).
Proof.
  unfold on_generate_button_click.
  destruct (generate_cases rl desk (collect self)
              {| fs := fs w; log := log w ++ [Collected (collect self)] |})
    as [[Hc ->]|[(Hp & e & _ & ->)|[(Hp & c & r & partial & _ & _ & ->)|(Hp & c & _ & _ & ->)]]];
    simpl; rewrite <- ?app_assoc; simpl.
  - exists []. split; [reflexivity|]. split; [constructor|]. split; [reflexivity | congruence].
  - eexists [_]. split; [reflexivity|]. split; [repeat constructor|].
    split; [congruence | reflexivity].
  - eexists [_]. split; [reflexivity|]. split; [repeat constructor|].
    split; [congruence | reflexivity].
  - eexists [_]. split; [reflexivity|]. split; [repeat constructor|].
    split; [congruence | reflexivity].
Qed.

Lemma X14_one_record_and_at_most_one_box_witness :
  exists box,
    log (on_generate_button_click Sample.reportlab (Sample.saving_to "invoice.pdf")
           Sample.indented_form Sample.blank_world)
    = [Collected (collect Sample.indented_form); box].
Proof.
  destruct (X14_one_record_and_at_most_one_box Sample.reportlab
              (Sample.saving_to "invoice.pdf") Sample.indented_form Sample.blank_world)
    as (boxes & Hlog & _ & _ & Hone).
  assert (Hp : asksaveasfilename (Sample.saving_to "invoice.pdf") <> "") by discriminate.
  specialize (Hone Hp). destruct boxes as [|box [|? ?]]; try discriminate.
  exists box. exact Hlog.
Defined.

(** X16.  A run after which the last message box is the error box has
    not left a new complete document: the file at the chosen path is what
    it was before the run, or is a truncated file. *)
Theorem X16_error_leaves_no_new_document
    (rl : ReportLab) (desk : Desktop) (data : Data) (w : World) (title message : string) :
  last (log (generate_invoice_pdf rl desk data w)) = Some (ShowError title message) ->
  fs (generate_invoice_pdf rl desk data w) !! asksaveasfilename desk
  = fs w !! asksaveasfilename desk
  \/ fs (generate_invoice_pdf rl desk data w) !! asksaveasfilename desk = Some Truncated.
Proof.
  destruct (generate_cases rl desk data w)
    as [[_ ->]|[(_ & e & _ & ->)|[(_ & c & r & partial & _ & _ & ->)|(_ & c & _ & _ & ->)]]];
    simpl; intros Hlast.
  - left. reflexivity.
  - left. reflexivity.
  - destruct partial; [right; apply lookup_insert_eq | left; reflexivity].
  - rewrite last_snoc in Hlast. discriminate.
Qed.

Lemma X16_error_leaves_no_new_document_witness :
  fs (generate_invoice_pdf Sample.reportlab (Sample.refused_at "invoice.pdf")
        Sample.two_and_one Sample.blank_world) !! "invoice.pdf" = None.
Proof.
  destruct (X16_error_leaves_no_new_document Sample.reportlab
              (Sample.refused_at "invoice.pdf") Sample.two_and_one Sample.blank_world
              "Error" "An error occurred during PDF generation: [Errno 13] Permission denied")
    as [H|H].
  - vm_compute. reflexivity.
  - exact H.
  - vm_compute in H. discriminate.
Defined.
